(** * websocket_probe: the probe engine of [src/websocket_probe.py]

    A shallow embedding of [WebSocketProbe] (connect, send_message,
    ping_test, http_probe, close) and of the mode drivers of
    [WebSocketProbeRunner] (basic_probe, continuous_probe, stress_test,
    interactive_mode), followed by the properties of the statistics record,
    of the connection handle and of the drivers.

    Conventions.
    - Python [int] counters are [Z].
    - Response times are Python floats holding a finite number of
      milliseconds.  A measured time is an exact number ([Z], in a fixed
      sub-millisecond unit), on which comparisons, [min] and [max] are
      exact as they are on floats; [float('inf')] is the extra value [Inf]
      of [rtime].  Float addition rounds and is not associative: the
      cumulative [total_response_time] is kept as the sum the code
      evaluates, addition by addition ([fsum]), and no law of addition is
      assumed of it.
    - The [websockets]/[aiohttp] libraries and the network are the
      environment: every awaited library call takes its outcome from an
      explicit argument.
    - [logger.*] and [print] calls are collected, in order, in a trace.
    - A character of a string is a code point below 256; text with other
      characters is not represented. *)

From Stdlib Require Import ZArith List String Ascii Bool Lia Permutation.
Import ListNotations.
Local Open Scope string_scope.
Local Open Scope list_scope.
Local Open Scope Z_scope.

(** ** Python string operations used by the source *)

Module PyStr.

(** [s.startswith(p)] *)
Definition startswith (s p : string) : bool := String.prefix p s.

(** [sub in s] *)
Fixpoint contains (sub s : string) : bool :=
  String.prefix sub s ||
  match s with
  | EmptyString => false
  | String _ s' => contains sub s'
  end.

(** [c.lower()]: the upper-case letters below 256 are A-Z, U+00C0-U+00D6
    and U+00D8-U+00DE, each 32 below its lower-case letter. *)
Definition lower_char (c : ascii) : ascii :=
  let n := nat_of_ascii c in
  if (Nat.leb 65 n && Nat.leb n 90
      || Nat.leb 192 n && Nat.leb n 222 && negb (Nat.eqb n 215))%bool
  then ascii_of_nat (n + 32) else c.

(** [s.lower()] *)
Fixpoint lower (s : string) : string :=
  match s with
  | EmptyString => EmptyString
  | String c s' => String (lower_char c) (lower s')
  end.

(** [s.replace(old, new)] for a non-empty [old]: every non-overlapping
    occurrence, scanning from the left.  [skip] counts the characters of a
    matched occurrence that are still to be dropped. *)
Fixpoint replace_from (skip : nat) (old new s : string) : string :=
  match s with
  | EmptyString => EmptyString
  | String c s' =>
      match skip with
      | S k => replace_from k old new s'
      | O =>
          if String.prefix old s
          then (new ++ replace_from (String.length old - 1) old new s')%string
          else String c (replace_from 0 old new s')
      end
  end.

Definition replace (s old new : string) : string := replace_from 0 old new s.

(** [s[:n]] *)
Definition take (n : nat) (s : string) : string := String.substring 0 n s.

End PyStr.

(** ** Response times and the statistics dictionary *)

Inductive rtime : Type :=
| Fin (t : Z)
| Inf.

(** [min(m, t)] where [t] is a finite response time *)
Definition rmin (m : rtime) (t : Z) : rtime :=
  match m with
  | Inf => Fin t
  | Fin a => Fin (Z.min a t)
  end.

(** [min(a, b)] on two entries of the dictionary *)
Definition rmin2 (a b : rtime) : rtime :=
  match b with
  | Inf => a
  | Fin t => rmin a t
  end.

(** The value of [total_response_time]: the integer 0 it starts from, a
    measured time, or the float sum [a + b] of two such values, in the
    order the code adds them. *)
Inductive fsum : Type :=
| Fzero
| Fnum (rt : Z)
| Fplus (a b : fsum).

(** [self.stats]: a dictionary with eight fixed keys. *)
Record Stats : Type := mkStats {
  connection_attempts : Z;
  successful_connections : Z;
  failed_connections : Z;
  messages_sent : Z;
  messages_received : Z;
  total_response_time : fsum;
  min_response_time : rtime;
  max_response_time : Z
}.

(** The dictionary literal of [__init__] (and of [total_stats]). *)
Definition init_stats : Stats :=
  {| connection_attempts := 0;
     successful_connections := 0;
     failed_connections := 0;
     messages_sent := 0;
     messages_received := 0;
     total_response_time := Fzero;
     min_response_time := Inf;
     max_response_time := 0 |}.

Definition incr_connection_attempts (s : Stats) : Stats :=
  mkStats (connection_attempts s + 1) (successful_connections s)
          (failed_connections s) (messages_sent s) (messages_received s)
          (total_response_time s) (min_response_time s) (max_response_time s).

Definition incr_successful_connections (s : Stats) : Stats :=
  mkStats (connection_attempts s) (successful_connections s + 1)
          (failed_connections s) (messages_sent s) (messages_received s)
          (total_response_time s) (min_response_time s) (max_response_time s).

Definition incr_failed_connections (s : Stats) : Stats :=
  mkStats (connection_attempts s) (successful_connections s)
          (failed_connections s + 1) (messages_sent s) (messages_received s)
          (total_response_time s) (min_response_time s) (max_response_time s).

Definition incr_messages_sent (s : Stats) : Stats :=
  mkStats (connection_attempts s) (successful_connections s)
          (failed_connections s) (messages_sent s + 1) (messages_received s)
          (total_response_time s) (min_response_time s) (max_response_time s).

(** Lines 245-248 of [send_message]: one received reply with response time
    [rt] is folded into the dictionary. *)
Definition record_response (rt : Z) (s : Stats) : Stats :=
  mkStats (connection_attempts s) (successful_connections s)
          (failed_connections s) (messages_sent s) (messages_received s + 1)
          (Fplus (total_response_time s) (Fnum rt))
          (rmin (min_response_time s) rt)
          (Z.max (max_response_time s) rt).

(** ** Exceptions, connections, the probe object *)

(** [InvalidStatusException] comes in two shapes: the legacy
    [InvalidStatusCode] has an integer attribute [status_code]; the newer
    [InvalidStatus] has a [response] object with a [status_code]. *)
Record Response : Type := mkResponse { resp_status_code : Z }.

Inductive exn : Type :=
| TimeoutError
| InvalidStatus (e_status_code : option Z) (e_response : option Response)
| InvalidHandshake (msg : string)
| TypeError (msg : string)
| ConnectionClosed
| OtherException (msg : string).

(** The library's connection object; [closed] is the attribute read by
    [_print_interactive_stats]. *)
Record Connection : Type := mkConnection { closed : bool }.

Record WebSocketProbe : Type := mkProbe {
  uri : string;
  timeout : Z;
  headers : list (string * string);
  skip_ssl_verify : bool;
  debug : bool;
  connection : option Connection;
  stats : Stats
}.

(** [WebSocketProbe.__init__] *)
Definition new_probe (u : string) (t : Z) (h : list (string * string))
                     (skip dbg : bool) : WebSocketProbe :=
  {| uri := u; timeout := t; headers := h; skip_ssl_verify := skip;
     debug := dbg; connection := None; stats := init_stats |}.

Definition set_stats (f : Stats -> Stats) (p : WebSocketProbe) : WebSocketProbe :=
  mkProbe (uri p) (timeout p) (headers p) (skip_ssl_verify p) (debug p)
          (connection p) (f (stats p)).

Definition set_connection (c : option Connection) (p : WebSocketProbe)
  : WebSocketProbe :=
  mkProbe (uri p) (timeout p) (headers p) (skip_ssl_verify p) (debug p)
          c (stats p).

(** The value bound to [status_code] on line 186. *)
Inductive status : Type :=
| Code (c : Z)
| Unknown.

(** ** Trace of console output *)

Inductive event : Type :=
| LogConnecting (u : string)
| LogDebugSettings
| LogSslVerifyDisabled
| LogDebugSsl
| LogHeadersUnsupported
| LogConnected
| LogConnectTimeout
| LogStatusFailed (s : status)
| LogHintPlainHttp
| LogHintCheckUrl
| LogHintNotFound
| LogHintForbidden
| LogHintUnauthorized
| LogHandshakeFailed (m : string)
| LogHintUpgrade
| LogConnectFailed (e : exn)
| LogNoActiveConnection
| LogSent (m : string)
| LogReceived (rt : Z)
| LogReplyTimeout
| LogConnectionClosed
| LogSendFailed (e : exn)
| LogPingOk
| LogPingTimeout
| LogPingFailed (e : exn)
| LogClosed
| PrintWaiting (interval : Z)
| Sleep (interval : Z)
| PrintStats (s : Stats)
| PrintStressSummary (s : Stats).

(** ** A small monad: probe state, trace, exceptions *)

Inductive outcome (A : Type) : Type :=
| Ret (a : A)
| Raise (e : exn).
Arguments Ret {A} a.
Arguments Raise {A} e.

Definition M (A : Type) : Type :=
  WebSocketProbe -> outcome A * WebSocketProbe * list event.

Definition ret {A} (a : A) : M A := fun p => (Ret a, p, []).

Definition bind {A B} (m : M A) (k : A -> M B) : M B :=
  fun p =>
    match m p with
    | (Ret a, p1, t1) =>
        match k a p1 with
        | (r, p2, t2) => (r, p2, t1 ++ t2)
        end
    | (Raise e, p1, t1) => (Raise e, p1, t1)
    end.

Definition emit (e : event) : M unit := fun p => (Ret tt, p, [e]).

Definition modify_stats (f : Stats -> Stats) : M unit :=
  fun p => (Ret tt, set_stats f p, []).

(** [try: body finally: fin]: [fin] always runs; an exception raised by
    [fin] replaces the result of [body]. *)
Definition try_finally {A} (body : M A) (fin : M unit) : M A :=
  fun p =>
    match body p with
    | (r, p1, t1) =>
        match fin p1 with
        | (Ret _, p2, t2) => (r, p2, t1 ++ t2)
        | (Raise e, p2, t2) => (Raise e, p2, t1 ++ t2)
        end
    end.

Declare Scope probe_scope.
Delimit Scope probe_scope with probe.
Notation "x <- m ;; k" := (bind m (fun x => k))
  (at level 61, m at next level, right associativity) : probe_scope.
Notation "m ;;; k" := (bind m (fun _ => k))
  (at level 61, right associativity) : probe_scope.
Local Open Scope probe_scope.

Definition when (b : bool) (m : M unit) : M unit := if b then m else ret tt.

Definition result_of {A} (r : outcome A * WebSocketProbe * list event) : outcome A :=
  fst (fst r).
Definition probe_of {A} (r : outcome A * WebSocketProbe * list event)
  : WebSocketProbe := snd (fst r).
Definition trace_of {A} (r : outcome A * WebSocketProbe * list event)
  : list event := snd r.

Definition get : M WebSocketProbe := fun p => (Ret p, p, []).

Definition put_connection (c : Connection) : M unit :=
  fun p => (Ret tt, set_connection (Some c) p, []).

Definition raise {A} (e : exn) : M A := fun p => (Raise e, p, []).

(** [await f(...)] for a library call [f]: its outcome is the environment's. *)
Definition await {A} (r : outcome A) : M A := fun p => (r, p, []).

(** [try: body except Exception as e: handler(e)]: what [body] did to the
    probe before raising stays done. *)
Definition catch {A} (body : M A) (handler : exn -> M A) : M A :=
  fun p =>
    match body p with
    | (Ret a, p1, t1) => (Ret a, p1, t1)
    | (Raise e, p1, t1) =>
        match handler e p1 with
        | (r, p2, t2) => (r, p2, t1 ++ t2)
        end
    end.

(** ** WebSocketProbe.connect *)

(** The three ways [connect] may call [websockets.connect]: with
    [additional_headers], with [extra_headers], without headers. *)
Record connect_env : Type := mkConnectEnv {
  with_additional_headers : outcome Connection;
  with_extra_headers : outcome Connection;
  without_headers : outcome Connection
}.

(** Lines 128-170: the nested [try ... except TypeError] around
    [websockets.connect]. *)
Definition open_connection (env : connect_env) : M Connection :=
  catch (await (with_additional_headers env))
    (fun e =>
       match e with
       | TypeError m =>
           if PyStr.contains "additional_headers" m then
             catch (await (with_extra_headers env))
               (fun e2 =>
                  match e2 with
                  | TypeError m2 =>
                      if PyStr.contains "extra_headers" m2 then
                        emit LogHeadersUnsupported ;;;
                        await (without_headers env)
                      else raise e2
                  | _ => raise e2
                  end)
           else raise e
       | _ => raise e
       end).

(** Lines 183-186: the status code read off an [InvalidStatusException].
    [a or b] takes [b] when [a] is [None] or [0]. *)
Definition extract_status (e_status_code : option Z)
                          (e_response : option Response) : status :=
  let of_response :=
    match e_response with
    | Some r => if resp_status_code r =? 0 then Unknown
                else Code (resp_status_code r)
    | None => Unknown
    end in
  match e_status_code with
  | Some c => if c =? 0 then of_response else Code c
  | None => of_response
  end.

Definition status_eqb (s : status) (c : Z) : bool :=
  match s with
  | Code c' => c' =? c
  | Unknown => false
  end.

(** Lines 190-198: the canned hints. *)
Definition status_hints (s : status) : M unit :=
  if status_eqb s 200 then emit LogHintPlainHttp ;;; emit LogHintCheckUrl
  else if status_eqb s 404 then emit LogHintNotFound
  else if status_eqb s 403 then emit LogHintForbidden
  else if status_eqb s 401 then emit LogHintUnauthorized
  else ret tt.

Definition connect (env : connect_env) : M bool :=
  catch
    (modify_stats incr_connection_attempts ;;;
     p <- get ;;
     emit (LogConnecting (uri p)) ;;;
     when (debug p) (emit LogDebugSettings) ;;;
     when (PyStr.startswith (uri p) "wss://")
       (when (skip_ssl_verify p) (emit LogSslVerifyDisabled) ;;;
        when (debug p) (emit LogDebugSsl)) ;;;
     c <- open_connection env ;;
     put_connection c ;;;
     modify_stats incr_successful_connections ;;;
     emit LogConnected ;;;
     ret true)
    (fun e =>
       match e with
       | TimeoutError =>
           modify_stats incr_failed_connections ;;;
           emit LogConnectTimeout ;;;
           ret false
       | InvalidStatus sc resp =>
           modify_stats incr_failed_connections ;;;
           let status_code := extract_status sc resp in
           emit (LogStatusFailed status_code) ;;;
           status_hints status_code ;;;
           ret false
       | InvalidHandshake m =>
           modify_stats incr_failed_connections ;;;
           emit (LogHandshakeFailed m) ;;;
           when (PyStr.contains "upgrade" (PyStr.lower m)
                 || PyStr.contains "websocket" (PyStr.lower m))
             (emit LogHintUpgrade) ;;;
           ret false
       | _ =>
           modify_stats incr_failed_connections ;;;
           emit (LogConnectFailed e) ;;;
           ret false
       end).

(** ** WebSocketProbe.send_message *)

(** [send_result]: outcome of [connection.send(message)];
    [recv_result]: outcome of the bounded [connection.recv()], a reply
    coming with the response time measured for it. *)
Record send_env : Type := mkSendEnv {
  send_result : outcome unit;
  recv_result : outcome Z
}.

Definition send_message (message : string) (env : send_env) : M (option Z) :=
  p <- get ;;
  match connection p with
  | None => emit LogNoActiveConnection ;;; ret None
  | Some _ =>
      catch
        (await (send_result env) ;;;
         modify_stats incr_messages_sent ;;;
         emit (LogSent (PyStr.take 100 message)) ;;;
         response_time <- await (recv_result env) ;;
         modify_stats (record_response response_time) ;;;
         emit (LogReceived response_time) ;;;
         ret (Some response_time))
        (fun e =>
           match e with
           | TimeoutError => emit LogReplyTimeout ;;; ret None
           | ConnectionClosed => emit LogConnectionClosed ;;; ret None
           | _ => emit (LogSendFailed e) ;;; ret None
           end)
  end.

(** ** WebSocketProbe.ping_test *)

Definition ping_test (pong : outcome unit) : M bool :=
  p <- get ;;
  match connection p with
  | None => emit LogNoActiveConnection ;;; ret false
  | Some _ =>
      catch
        (await pong ;;; emit LogPingOk ;;; ret true)
        (fun e =>
           match e with
           | TimeoutError => emit LogPingTimeout ;;; ret false
           | _ => emit (LogPingFailed e) ;;; ret false
           end)
  end.

(** ** WebSocketProbe.close *)

(** [closing]: outcome of the library's [connection.close()], which leaves
    the connection object closed.  [self.connection] is not reassigned. *)
Definition close (closing : outcome unit) : M unit :=
  p <- get ;;
  match connection p with
  | None => ret tt
  | Some _ =>
      await closing ;;;
      put_connection (mkConnection true) ;;;
      emit LogClosed
  end.

(** ** WebSocketProbe.print_stats *)

Definition print_stats : M unit :=
  p <- get ;; emit (PrintStats (stats p)).

(** ** WebSocketProbe.http_probe *)

(** Line 298. *)
Definition http_url (u : string) : string :=
  PyStr.replace (PyStr.replace u "ws://" "http://") "wss://" "https://".

(** The GET request: URL, headers, and the certificate policy ([None] when
    no SSL context is built, [Some false] when verification is disabled). *)
Record HttpRequest : Type := mkHttpRequest {
  req_url : string;
  req_headers : list (string * string);
  req_verify : option bool;
  req_timeout : Z
}.

Record HttpResponse : Type := mkHttpResponse {
  resp_status : Z;
  resp_headers : list (string * string);
  resp_content_type : string;
  resp_url : string;
  resp_text : outcome string
}.

Inductive http_result : Type :=
| HttpInfo (status_code : Z) (hdrs : list (string * string))
           (content_type url content : string)
| HttpError (e : exn).

Definition http_request (p : WebSocketProbe) : HttpRequest :=
  let url := http_url (uri p) in
  {| req_url := url;
     req_headers := headers p;
     req_verify := if PyStr.startswith url "https://"
                   then Some (negb (skip_ssl_verify p)) else None;
     req_timeout := timeout p |}.

Definition http_probe (server : HttpRequest -> outcome HttpResponse)
  : M http_result :=
  p <- get ;;
  match server (http_request p) with
  | Ret r =>
      let content :=
        match resp_text r with
        | Ret s => if Nat.ltb 500 (String.length s) then PyStr.take 500 s else s
        | Raise _ => "unreadable"  (* the source's fixed notice *)
        end in
      ret (HttpInfo (resp_status r) (resp_headers r) (resp_content_type r)
                    (resp_url r) content)
  | Raise e => ret (HttpError e)
  end.

(** ** Operations on one session, in sequence *)

Inductive op : Type :=
| Connect (env : connect_env)
| SendMessage (message : string) (env : send_env)
| PingTest (pong : outcome unit)
| HttpProbe (server : HttpRequest -> outcome HttpResponse)
| Close (closing : outcome unit).

Definition run_op (o : op) : M unit :=
  match o with
  | Connect env => connect env ;;; ret tt
  | SendMessage m env => send_message m env ;;; ret tt
  | PingTest pong => ping_test pong ;;; ret tt
  | HttpProbe server => http_probe server ;;; ret tt
  | Close closing => close closing
  end.

(** The session after the caller performed [ops] one after the other (an
    exception escaping [close] is the caller's; the session stays as
    [close] left it). *)
Fixpoint run_ops (ops : list op) (p : WebSocketProbe) : WebSocketProbe :=
  match ops with
  | [] => p
  | o :: ops' => run_ops ops' (probe_of (run_op o p))
  end.

(** Does this [connect] end with a connection? *)
Definition connect_succeeds (env : connect_env) (p : WebSocketProbe) : bool :=
  match result_of (connect env p) with
  | Ret b => b
  | Raise _ => false
  end.

(** ** WebSocketProbeRunner *)

Record WebSocketProbeRunner : Type := mkRunner { running : bool }.

(** [signal_handler] *)
Definition signal_handler (self : WebSocketProbeRunner) : WebSocketProbeRunner :=
  {| running := false |}.

(** *** continuous_probe *)

(** What the environment does during one iteration of the [while] loop:
    the outcomes of the library calls ([cy_sleep] is that of
    [asyncio.sleep(interval)], which raises, for one, when the interval
    does not fit a float), and whether the interrupt signal is delivered
    between the loop test and the [if self.running] test
    ([interrupt_in_cycle]) or between that test and the next loop test
    ([interrupt_in_sleep]). *)
Record cycle_env : Type := mkCycleEnv {
  cy_connect : connect_env;
  cy_ping : outcome unit;
  cy_send : send_env;
  cy_close : outcome unit;
  cy_sleep : outcome unit;
  interrupt_in_cycle : bool;
  interrupt_in_sleep : bool
}.

Definition deliver (interrupt : bool) (self : WebSocketProbeRunner)
  : WebSocketProbeRunner :=
  if interrupt then signal_handler self else self.

(** Lines 424-427: one probe cycle. *)
Definition probe_cycle (message : string) (e : cycle_env) : M unit :=
  connected <- connect (cy_connect e) ;;
  if connected then
    ping_test (cy_ping e) ;;;
    send_message message (cy_send e) ;;;
    close (cy_close e)
  else ret tt.

(** Lines 423-431: the [while self.running] loop.  The list of iteration
    environments is the fuel: [None] when it is used up with the loop still
    running.  [Sleep] records a sleep that returned; one that raises ends
    the loop like any other exception. *)
Fixpoint probe_loop (interval : Z) (message : string)
    (self : WebSocketProbeRunner) (envs : list cycle_env) (p : WebSocketProbe)
  : option (outcome unit * WebSocketProbe * list event) :=
  if running self then
    match envs with
    | [] => None
    | e :: envs' =>
        match probe_cycle message e p with
        | (Raise x, p1, t1) => Some (Raise x, p1, t1)
        | (Ret _, p1, t1) =>
            let self1 := deliver (interrupt_in_cycle e) self in
            match when (running self1)
                    (emit (PrintWaiting interval) ;;;
                     await (cy_sleep e) ;;;
                     emit (Sleep interval)) p1
            with
            | (Raise x, p2, t2) => Some (Raise x, p2, t1 ++ t2)
            | (Ret _, p2, t2) =>
                let self2 := deliver (interrupt_in_sleep e) self1 in
                match probe_loop interval message self2 envs' p2 with
                | Some (r, p3, t3) => Some (r, p3, t1 ++ t2 ++ t3)
                | None => None
                end
            end
        end
    end
  else Some (Ret tt, p, []).

(** [continuous_probe]: the loop, then [finally: close; print_stats].
    [SIGINT] is handled by [signal_handler], so the
    [except KeyboardInterrupt] branch has no outcome of its own here. *)
Definition continuous_probe (self : WebSocketProbeRunner) (u : string)
    (interval : Z) (message : string) (hdrs : list (string * string))
    (skip : bool) (envs : list cycle_env) (final_close : outcome unit)
  : option (outcome unit * WebSocketProbe * list event) :=
  let probe := new_probe u 5 hdrs skip false in
  match probe_loop interval message self envs probe with
  | None => None
  | Some body =>
      Some (try_finally (fun _ => body)
                        (close final_close ;;; print_stats) probe)
  end.

(** *** stress_test *)

Record trial_env : Type := mkTrialEnv {
  tr_connect : connect_env;
  tr_send : send_env;
  tr_close : outcome unit
}.

(** Lines 447-455: one trial on a probe of its own; the result is the
    trial's [probe.stats], or the exception that escaped it. *)
Definition single_test (u message : string) (hdrs : list (string * string))
    (skip : bool) (e : trial_env) : outcome Stats :=
  let probe := new_probe u 5 hdrs skip false in
  result_of
    (try_finally
       (connected <- connect (tr_connect e) ;;
        when connected (send_message message (tr_send e) ;;; ret tt) ;;;
        p <- get ;;
        ret (stats p))
       (close (tr_close e))
       probe).

(** The keys of [total_stats], in the order of the dictionary literal. *)
Inductive key : Type :=
| K_connection_attempts
| K_successful_connections
| K_failed_connections
| K_messages_sent
| K_messages_received
| K_total_response_time
| K_min_response_time
| K_max_response_time.

Definition keys : list key :=
  [K_connection_attempts; K_successful_connections; K_failed_connections;
   K_messages_sent; K_messages_received; K_total_response_time;
   K_min_response_time; K_max_response_time].

(** Lines 476-482: the body of [for key in total_stats]. *)
Definition merge_key (result total : Stats) (k : key) : Stats :=
  match k with
  | K_min_response_time =>
      match min_response_time result with
      | Inf => total
      | Fin t =>
          mkStats (connection_attempts total) (successful_connections total)
                  (failed_connections total) (messages_sent total)
                  (messages_received total) (total_response_time total)
                  (rmin (min_response_time total) t) (max_response_time total)
      end
  | K_max_response_time =>
      mkStats (connection_attempts total) (successful_connections total)
              (failed_connections total) (messages_sent total)
              (messages_received total) (total_response_time total)
              (min_response_time total)
              (Z.max (max_response_time total) (max_response_time result))
  | K_connection_attempts =>
      mkStats (connection_attempts total + connection_attempts result)
              (successful_connections total)
              (failed_connections total) (messages_sent total)
              (messages_received total) (total_response_time total)
              (min_response_time total) (max_response_time total)
  | K_successful_connections =>
      mkStats (connection_attempts total)
              (successful_connections total + successful_connections result)
              (failed_connections total) (messages_sent total)
              (messages_received total) (total_response_time total)
              (min_response_time total) (max_response_time total)
  | K_failed_connections =>
      mkStats (connection_attempts total) (successful_connections total)
              (failed_connections total + failed_connections result)
              (messages_sent total)
              (messages_received total) (total_response_time total)
              (min_response_time total) (max_response_time total)
  | K_messages_sent =>
      mkStats (connection_attempts total) (successful_connections total)
              (failed_connections total)
              (messages_sent total + messages_sent result)
              (messages_received total) (total_response_time total)
              (min_response_time total) (max_response_time total)
  | K_messages_received =>
      mkStats (connection_attempts total) (successful_connections total)
              (failed_connections total) (messages_sent total)
              (messages_received total + messages_received result)
              (total_response_time total)
              (min_response_time total) (max_response_time total)
  | K_total_response_time =>
      mkStats (connection_attempts total) (successful_connections total)
              (failed_connections total) (messages_sent total)
              (messages_received total)
              (Fplus (total_response_time total) (total_response_time result))
              (min_response_time total) (max_response_time total)
  end.

(** One result folded into the running total. *)
Definition merge (total result : Stats) : Stats :=
  fold_left (merge_key result) keys total.

(** Lines 473-482: [for result in results: if isinstance(result, dict)]. *)
Definition aggregate (results : list (outcome Stats)) : Stats :=
  fold_left
    (fun total result =>
       match result with
       | Ret s => merge total s
       | Raise _ => total
       end)
    results init_stats.

(** [asyncio.gather] with [return_exceptions=True] over [count] trials:
    one entry per task, in task order.  Trials share nothing, so the entries
    do not depend on how the semaphore interleaves them. *)
Definition gather (u message : string) (hdrs : list (string * string))
    (skip : bool) (count : Z) (envs : nat -> trial_env) : list (outcome Stats) :=
  map (fun i => single_test u message hdrs skip (envs i))
      (seq 0 (Z.to_nat count)).

(** [stress_test]: the total it prints.  Line 445 builds
    [asyncio.Semaphore(concurrency)], which raises [ValueError] for a
    negative value; with the value 0 no trial is ever admitted, so with at
    least one trial [gather] never returns ([None]); with a positive value
    every trial is admitted in its turn and the total is printed. *)
Definition stress_test (u : string) (count concurrency : Z) (message : string)
    (hdrs : list (string * string)) (skip : bool) (envs : nat -> trial_env)
  : option (outcome Stats) :=
  if concurrency <? 0 then
    Some (Raise (OtherException "ValueError: Semaphore initial value must be >= 0"))
  else if ((concurrency =? 0) && (0 <? count))%bool then None
  else Some (Ret (aggregate (gather u message hdrs skip count envs))).

(** ** Standard output of the interactive and diagnostic paths *)

(** More string operations.  [isspace] is [str.isspace] on the code points
    below 256: the ASCII white space (9-13, 28-32), U+0085 and U+00A0. *)
Module PyText.

Definition isspace (c : ascii) : bool :=
  let n := nat_of_ascii c in
  (Nat.leb 9 n && Nat.leb n 13 || Nat.leb 28 n && Nat.leb n 32
   || Nat.eqb n 133 || Nat.eqb n 160)%bool.

(** Every character is an ASCII character. *)
Fixpoint is_ascii (s : string) : bool :=
  match s with
  | EmptyString => true
  | String c s' => (Nat.ltb (nat_of_ascii c) 128 && is_ascii s')%bool
  end.

(** [s.lstrip()] *)
Fixpoint lstrip (s : string) : string :=
  match s with
  | EmptyString => EmptyString
  | String c s' => if isspace c then lstrip s' else s
  end.

(** [s.rstrip()] *)
Fixpoint rstrip (s : string) : string :=
  match s with
  | EmptyString => EmptyString
  | String c s' =>
      match rstrip s' with
      | EmptyString => if isspace c then EmptyString else String c EmptyString
      | r => String c r
      end
  end.

(** [s.strip()] *)
Definition strip (s : string) : string := rstrip (lstrip s).

(** Truth value of a string: non-empty. *)
Definition truthy (s : string) : bool :=
  match s with EmptyString => false | String _ _ => true end.

(** [s in words] *)
Definition among (s : string) (words : list string) : bool :=
  existsb (String.eqb s) words.

End PyText.

(** What [print] writes in [basic_probe]'s diagnosis and in
    [interactive_mode]. *)
Inductive line : Type :=
| DiagBanner
| DiagStatus (c : option Z)
| DiagContentType (t : option string)
| DiagError (text : string)
| DiagHeadersTitle
| DiagHeader (k v : string)
| DiagContent (s : string)
| DiagRule
| SayUsage
| SayCannotConnect
| SayConnected
| SayBye
| SayPingOk
| SayPingFailed
| SayStats (sent received : Z) (connected : bool)
| SayHelp
| SaySent (s : string)
| SaySendError (e : exn)
| SayReceived (m : string)
| SayPeerClosed
| SayReceiveError (e : exn)
| SayFinalStats.

(** Console output of a driver: the probe's own trace, and the driver's
    prints. *)
Inductive console : Type :=
| Logged (e : event)
| Printed (l : line).

Definition IO (A : Type) : Type :=
  WebSocketProbe -> outcome A * WebSocketProbe * list console.

Definition lift {A} (m : M A) : IO A :=
  fun p => match m p with (r, q, t) => (r, q, map Logged t) end.

Definition io_ret {A} (a : A) : IO A := fun p => (Ret a, p, []).

Definition io_bind {A B} (m : IO A) (k : A -> IO B) : IO B :=
  fun p =>
    match m p with
    | (Ret a, p1, t1) =>
        match k a p1 with
        | (r, p2, t2) => (r, p2, t1 ++ t2)
        end
    | (Raise e, p1, t1) => (Raise e, p1, t1)
    end.

Definition say (l : line) : IO unit := fun p => (Ret tt, p, [Printed l]).

Definition io_finally {A} (body : IO A) (fin : IO unit) : IO A :=
  fun p =>
    match body p with
    | (r, p1, t1) =>
        match fin p1 with
        | (Ret _, p2, t2) => (r, p2, t1 ++ t2)
        | (Raise e, p2, t2) => (Raise e, p2, t1 ++ t2)
        end
    end.

Declare Scope io_scope.
Delimit Scope io_scope with io.
Notation "x <- m ;; k" := (io_bind m (fun x => k))
  (at level 61, m at next level, right associativity) : io_scope.
Notation "m ;;; k" := (io_bind m (fun _ => k))
  (at level 61, right associativity) : io_scope.

(** *** basic_probe *)

Record basic_env : Type := mkBasicEnv {
  bs_connect : connect_env;
  bs_ping : outcome unit;
  bs_send : send_env;
  bs_server : HttpRequest -> outcome HttpResponse;
  bs_close : outcome unit
}.

(** The header names shown by the diagnosis. *)
Definition shown_headers : list string :=
  ["upgrade"; "connection"; "sec-websocket-accept"; "sec-websocket-protocol"].

(** Lines 393-407: what is printed about the dictionary [http_probe]
    returned.  [str_exn] is Python's [str] on exceptions. *)
Definition diagnose (str_exn : exn -> string) (r : http_result) : list line :=
  match r with
  | HttpError e =>
      [DiagStatus None; DiagContentType None]
      ++ (if PyText.truthy (str_exn e) then [DiagError (str_exn e)]
          else [DiagHeadersTitle])
  | HttpInfo status_code hdrs content_type _ content =>
      [DiagStatus (Some status_code); DiagContentType (Some content_type);
       DiagHeadersTitle]
      ++ map (fun kv => DiagHeader (fst kv) (snd kv))
             (filter (fun kv => PyText.among (PyStr.lower (fst kv)) shown_headers)
                     hdrs)
      ++ (if PyText.truthy content then [DiagContent content] else [])
  end.

(** Lines 379-415.  [http_probe] turns every failure into a dictionary, so
    the inner [except Exception] has nothing to catch. *)
Definition basic_probe (str_exn : exn -> string) (u message : string)
    (hdrs : list (string * string)) (skip dbg : bool) (env : basic_env)
  : outcome unit * WebSocketProbe * list console :=
  let probe := new_probe u 5 hdrs skip dbg in
  io_finally
    (connected <- lift (connect (bs_connect env)) ;;
     if connected then
       lift (ping_test (bs_ping env)) ;;;
       lift (send_message message (bs_send env)) ;;;
       io_ret tt
     else if dbg then
       say DiagBanner ;;;
       http_result <- lift (http_probe (bs_server env)) ;;
       (fun p => (Ret tt, p, map Printed (diagnose str_exn http_result))) ;;;
       say DiagRule
     else io_ret tt)%io
    (lift (close (bs_close env)) ;;; lift print_stats)%io
    probe.

(** *** interactive_mode *)

(** [_print_interactive_stats] *)
Definition print_interactive_stats : IO unit :=
  fun p =>
    let connected :=
      match connection p with
      | Some c => negb (closed c)
      | None => false
      end in
    (Ret tt, p,
     [Printed (SayStats (messages_sent (stats p)) (messages_received (stats p))
                        connected)]).

Inductive loop_control : Type :=
| Continue
| Break.

(** One turn of the prompt: the line [input] returns (or the exception it
    raises), and the outcomes of the library calls the turn may make. *)
Record prompt_env : Type := mkPromptEnv {
  pe_line : outcome string;
  pe_pong : outcome unit;
  pe_send : outcome unit
}.

(** Lines 536-573: the body of [while True].  Sending on a missing
    connection is an attribute error, caught like any other.  [SIGINT] is
    handled by [signal_handler], so [input] is not left through
    [KeyboardInterrupt]. *)
Definition prompt_turn (e : prompt_env) : IO loop_control :=
  match pe_line e with
  | Raise x => (say (SaySendError x) ;;; io_ret Break)%io
  | Ret user_input =>
      if PyText.among (PyStr.lower user_input) ["quit"; "exit"; "q"] then
        (say SayBye ;;; io_ret Break)%io
      else if String.eqb (PyStr.lower user_input) "ping" then
        (success <- lift (ping_test (pe_pong e)) ;;
         say (if success then SayPingOk else SayPingFailed) ;;;
         io_ret Continue)%io
      else if String.eqb (PyStr.lower user_input) "stats" then
        (print_interactive_stats ;;; io_ret Continue)%io
      else if String.eqb (PyStr.lower user_input) "help" then
        (say SayHelp ;;; io_ret Continue)%io
      else if negb (PyText.truthy (PyText.strip user_input)) then
        io_ret Continue
      else
        fun p =>
          match connection p, pe_send e with
          | Some _, Ret _ =>
              (Ret Continue, set_stats incr_messages_sent p,
               [Printed (SaySent user_input)])
          | Some _, Raise x => (Ret Break, p, [Printed (SaySendError x)])
          | None, _ =>
              (Ret Break, p, [Printed (SaySendError (OtherException "AttributeError"))])
          end
  end.

Definition incr_messages_received (s : Stats) : Stats :=
  mkStats (connection_attempts s) (successful_connections s)
          (failed_connections s) (messages_sent s) (messages_received s + 1)
          (total_response_time s) (min_response_time s) (max_response_time s).

(** Lines 590-602: one turn of [_message_receiver], [r] being the outcome
    of [connection.recv()].  The result tells whether the task goes on. *)
Definition receiver_turn (r : outcome string) : IO bool :=
  match r with
  | Ret message =>
      fun p => (Ret true, set_stats incr_messages_received p,
                [Printed (SayReceived message)])
  | Raise ConnectionClosed => (say SayPeerClosed ;;; io_ret false)%io
  | Raise x => (say (SayReceiveError x) ;;; io_ret false)%io
  end.

(** The two activities of [interactive_mode] run on one event loop: each
    takes a turn between two of its [await]s.  A schedule lists the turns
    in the order they are taken. *)
Inductive turn : Type :=
| Prompt (e : prompt_env)
| Incoming (r : outcome string).

(** The prompt loop with the receiver task beside it; [receiving] tells
    whether the receiver task is still running.  The schedule is the fuel:
    [None] when it ends with the prompt still open. *)
Fixpoint interactive_loop (schedule : list turn) (receiving : bool)
    (p : WebSocketProbe) : option (WebSocketProbe * list console) :=
  match schedule with
  | [] => None
  | Incoming r :: schedule' =>
      if receiving then
        match receiver_turn r p with
        | (Ret again, p1, t1) =>
            match interactive_loop schedule' again p1 with
            | Some (p2, t2) => Some (p2, t1 ++ t2)
            | None => None
            end
        | (Raise _, p1, t1) => Some (p1, t1)
        end
      else interactive_loop schedule' receiving p
  | Prompt e :: schedule' =>
      match prompt_turn e p with
      | (Ret Continue, p1, t1) =>
          match interactive_loop schedule' receiving p1 with
          | Some (p2, t2) => Some (p2, t1 ++ t2)
          | None => None
          end
      | (_, p1, t1) => Some (p1, t1)
      end
  end.

(** Lines 519-585. *)
Definition interactive_mode (u : string) (hdrs : list (string * string))
    (skip dbg : bool) (connecting : connect_env) (schedule : list turn)
    (closing : outcome unit)
  : option (outcome unit * WebSocketProbe * list console) :=
  let probe := new_probe u 5 hdrs skip dbg in
  let finish := (lift (close closing) ;;; say SayFinalStats ;;;
                 lift print_stats)%io in
  match (say SayUsage ;;; lift (connect connecting))%io probe with
  | (Ret true, p1, t1) =>
      match interactive_loop schedule true p1 with
      | Some (p2, t2) =>
          Some (io_finally
                  (fun _ => (Ret tt, p2, t1 ++ [Printed SayConnected] ++ t2))
                  finish probe)
      | None => None
      end
  | (_, p1, t1) =>
      Some (io_finally
              (fun _ => (Ret tt, p1, t1 ++ [Printed SayCannotConnect]))
              finish probe)
  end.

(** * Vocabulary of the statements *)

(** The probe that a succeeding [connect] leaves behind. *)
Definition connected_probe (c : Connection) (p : WebSocketProbe) : WebSocketProbe :=
  set_stats incr_successful_connections
    (set_connection (Some c) (set_stats incr_connection_attempts p)).

(** The probe that a failing [connect] leaves behind. *)
Definition refused_probe (p : WebSocketProbe) : WebSocketProbe :=
  set_stats incr_failed_connections (set_stats incr_connection_attempts p).

(** One operation moves the statistics in one of five ways. *)
Inductive stats_step (s : Stats) : Stats -> Prop :=
| step_same : stats_step s s
| step_connected :
    stats_step s (incr_successful_connections (incr_connection_attempts s))
| step_refused :
    stats_step s (incr_failed_connections (incr_connection_attempts s))
| step_sent : stats_step s (incr_messages_sent s)
| step_replied (rt : Z) :
    stats_step s (record_response rt (incr_messages_sent s)).

(** Successes plus failures equal the attempts. *)
Definition balanced (s : Stats) : Prop :=
  successful_connections s + failed_connections s = connection_attempts s.

(** No more replies counted than messages sent. *)
Definition received_le_sent (s : Stats) : Prop :=
  messages_received s <= messages_sent s.

(** No [connect] of the sequence, run from session [p], returned [True]. *)
Fixpoint never_connected (ops : list op) (p : WebSocketProbe) : bool :=
  match ops with
  | [] => true
  | o :: ops' =>
      match o with
      | Connect env => negb (connect_succeeds env p)
      | _ => true
      end && never_connected ops' (probe_of (run_op o p))
  end.

(** [self.connection] holds a connection object. *)
Definition has_handle (p : WebSocketProbe) : bool :=
  match connection p with Some _ => true | None => false end.

(** The handle as the specification describes it: present exactly between
    a succeeding [connect] and the next [close]. *)
Fixpoint spec_handle_present (ops : list op) (p : WebSocketProbe)
    (present : bool) : bool :=
  match ops with
  | [] => present
  | o :: ops' =>
      spec_handle_present ops' (probe_of (run_op o p))
        match o with
        | Connect env => connect_succeeds env p
        | Close _ => false
        | _ => present
        end
  end.

(** The exception reports HTTP status [c]: as the integer attribute
    [status_code] (legacy shape), or as [response.status_code] with no
    [status_code] attribute of its own (current shape). *)
Definition carries_status (sc : option Z) (resp : option Response) (c : Z)
  : Prop :=
  sc = Some c \/ (sc = None /\ resp = Some (mkResponse c)).

(** What the response-time entries look like on any session. *)
Definition latency_wf (s : Stats) : Prop :=
  0 <= messages_received s
  /\ 0 <= max_response_time s
  /\ (messages_received s = 0 ->
      min_response_time s = Inf /\ max_response_time s = 0
      /\ total_response_time s = Fzero).

(** The body of [for result in results]. *)
Definition fold_result (total : Stats) (result : outcome Stats) : Stats :=
  match result with
  | Ret s => merge total s
  | Raise _ => total
  end.

(** Did the trial hand back its statistics? *)
Definition returned (r : outcome Stats) : bool :=
  match r with Ret _ => true | Raise _ => false end.

(** What an entry of [results] adds to [connection_attempts]. *)
Definition attempts_of (r : outcome Stats) : Z :=
  match r with Ret s => connection_attempts s | Raise _ => 0 end.

(** Number of events of a trace that satisfy [f]. *)
Definition count_events (f : event -> bool) (tr : list event) : nat :=
  List.length (filter f tr).

(** The first log line of [connect]. *)
Definition is_connecting (e : event) : bool :=
  match e with LogConnecting _ => true | _ => false end.

(** The print-out of [print_stats]. *)
Definition is_print_stats (e : event) : bool :=
  match e with PrintStats _ => true | _ => false end.

(** A trace with no connection start and no statistics print-out. *)
Definition quiet (tr : list event) : Prop :=
  count_events is_connecting tr = 0%nat /\ count_events is_print_stats tr = 0%nat.

(** The rewrite as the specification words it: only the scheme changes. *)
Definition spec_http_url (u : string) : string :=
  if PyStr.startswith u "wss://"
  then ("https://" ++ String.substring 6 (String.length u - 6) u)%string
  else if PyStr.startswith u "ws://"
  then ("http://" ++ String.substring 5 (String.length u - 5) u)%string
  else u.

(** Did the awaited call return? *)
Definition returns {A} (r : outcome A) : bool :=
  match r with Ret _ => true | Raise _ => false end.

(** The response-time extrema agree with the number of replies: with no
    reply they are the initial ones; otherwise the minimum is finite and
    lies below the maximum.  (Nothing is said of the float sum
    [total_response_time].) *)
Definition latency_sound (s : Stats) : Prop :=
  0 <= max_response_time s
  /\ match min_response_time s with
     | Inf => messages_received s = 0 /\ max_response_time s = 0
     | Fin a => 0 < messages_received s /\ a <= max_response_time s
     end.

(** What holds of the statistics of a stress trial, and of their total. *)
Definition trial_sound (s : Stats) : Prop :=
  balanced s
  /\ 0 <= failed_connections s
  /\ 0 <= messages_received s
  /\ messages_received s <= messages_sent s
  /\ messages_sent s <= successful_connections s
  /\ latency_sound s.

(** An iteration without interrupt, whose [close] and whose sleep return
    ([asyncio.sleep] raises for an interval it cannot represent). *)
Definition calm (e : cycle_env) : bool :=
  (negb (interrupt_in_cycle e) && negb (interrupt_in_sleep e)
   && returns (cy_close e) && returns (cy_sleep e))%bool.

(** The dictionary [http_probe] returns for a session. *)
Definition http_snapshot (server : HttpRequest -> outcome HttpResponse)
    (p : WebSocketProbe) : http_result :=
  match result_of (http_probe server p) with
  | Ret r => r
  | Raise e => HttpError e
  end.

(** Number of console items that satisfy [f]. *)
Definition count_console (f : console -> bool) (t : list console) : nat :=
  List.length (filter f t).

(** The print-out of [print_stats], on the console. *)
Definition is_stats_printout (c : console) : bool :=
  match c with
  | Logged e => is_print_stats e
  | Printed _ => false
  end.

(** The driver's own prints, as opposed to the probe's trace. *)
Definition is_printed (c : console) : bool :=
  match c with
  | Logged _ => false
  | Printed _ => true
  end.

(** The words the prompt keeps for itself. *)
Definition reserved_words : list string :=
  ["quit"; "exit"; "q"; "ping"; "stats"; "help"].

(** The line asks to leave, in any letter case. *)
Definition is_quit (user_input : string) : bool :=
  PyText.among (PyStr.lower user_input) ["quit"; "exit"; "q"].

(** The line is a reserved word in any letter case, or blank. *)
Definition is_command (user_input : string) : bool :=
  (PyText.among (PyStr.lower user_input) reserved_words
   || negb (PyText.truthy (PyText.strip user_input)))%bool.

(** The turn is a prompt that ends the loop at once: a quit word, or
    [input] raising. *)
Definition ends_session (t : turn) : bool :=
  match t with
  | Prompt e =>
      match pe_line e with
      | Ret user_input => is_quit user_input
      | Raise _ => true
      end
  | Incoming _ => false
  end.

Definition is_prompt (t : turn) : bool :=
  match t with Prompt _ => true | Incoming _ => false end.

Definition is_incoming (t : turn) : bool :=
  match t with Prompt _ => false | Incoming _ => true end.

(** What the statistics and the handle of a session are after the prompt
    loop, in terms of what they were before it. *)
Definition loop_accounting (schedule : list turn) (p q : WebSocketProbe)
    (t : list console) : Prop :=
  connection q = connection p
  /\ connection_attempts (stats q) = connection_attempts (stats p)
  /\ successful_connections (stats q) = successful_connections (stats p)
  /\ failed_connections (stats q) = failed_connections (stats p)
  /\ total_response_time (stats q) = total_response_time (stats p)
  /\ min_response_time (stats q) = min_response_time (stats p)
  /\ max_response_time (stats q) = max_response_time (stats p)
  /\ messages_sent (stats p) <= messages_sent (stats q)
     <= messages_sent (stats p) + Z.of_nat (List.length (filter is_prompt schedule))
  /\ messages_received (stats p) <= messages_received (stats q)
     <= messages_received (stats p)
        + Z.of_nat (List.length (filter is_incoming schedule))
  /\ count_console is_stats_printout t = 0%nat.

(** The warning that certificate verification is off. *)
Definition is_ssl_warning (e : event) : bool :=
  match e with LogSslVerifyDisabled => true | _ => false end.



(** What follows the cycle of an iteration: nothing when the interrupt
    came during the cycle, else the announcement and the sleep. *)
Definition pause (interval : Z) (e : cycle_env) : M unit :=
  if interrupt_in_cycle e then ret tt
  else emit (PrintWaiting interval) ;;; await (cy_sleep e) ;;;
       emit (Sleep interval).

(** The two records agree on every entry but [total_response_time]. *)
Definition agree_except_total (a b : Stats) : Prop :=
  connection_attempts a = connection_attempts b
  /\ successful_connections a = successful_connections b
  /\ failed_connections a = failed_connections b
  /\ messages_sent a = messages_sent b
  /\ messages_received a = messages_received b
  /\ min_response_time a = min_response_time b
  /\ max_response_time a = max_response_time b.

(** The line that announces a received frame. *)
Definition is_received_line (c : console) : bool :=
  match c with
  | Printed (SayReceived _) => true
  | _ => false
  end.

(** The turns in which the frames [msgs] arrive, in order. *)
Definition frames (msgs : list string) : list turn :=
  map (fun message => Incoming (Ret message)) msgs.

(** * Sample sessions and environments *)

(** A connection as the library hands it over: open. *)
Definition a_connection : Connection := mkConnection false.

(** A session that holds a connection. *)
Definition a_session : WebSocketProbe :=
  set_connection (Some a_connection)
    (new_probe "ws://localhost:9001/echo" 5 [] false false).

(** A server that lets every handshake time out. *)
Definition refusing : connect_env :=
  mkConnectEnv (Raise TimeoutError) (Raise TimeoutError) (Raise TimeoutError).

(** A server that accepts the handshake. *)
Definition accepting : connect_env :=
  mkConnectEnv (Ret a_connection) (Ret a_connection) (Ret a_connection).

(** A peer that replies, the reply being measured at [rt]. *)
Definition echo (rt : Z) : send_env := mkSendEnv (Ret tt) (Ret rt).

(** A session just built by [__init__]. *)
Definition fresh_session : WebSocketProbe :=
  new_probe "ws://localhost:9001/echo" 5 [] false false.

(** A plain HTTP server: the upgrade request is answered with 200. *)
Definition rejecting_200 : connect_env :=
  mkConnectEnv (Raise (InvalidStatus None (Some (mkResponse 200))))
               (Ret a_connection) (Ret a_connection).

(** Statistics of a trial with one reply, and of a trial refused. *)
Definition one_echo : Stats :=
  stats (run_ops [Connect accepting; SendMessage "ping" (echo 50)] fresh_session).

Definition one_refusal : Stats :=
  stats (run_ops [Connect refusing] fresh_session).

(** The library's [close] raising. *)
Definition failing_close : outcome unit := Raise (OtherException "close failed").

(** A trial that connects, exchanges one message, and fails to close. *)
Definition faulty_trial : trial_env :=
  mkTrialEnv accepting (echo 50) failing_close.

(** A trial in which every library call returns. *)
Definition sound_trial : trial_env := mkTrialEnv accepting (echo 50) (Ret tt).

(** An iteration during whose sleep the interrupt arrives. *)
Definition stop_after_first : cycle_env :=
  mkCycleEnv accepting (Ret tt) (echo 50) (Ret tt) (Ret tt) false true.

(** An iteration without interrupt. *)
Definition never_stop : cycle_env :=
  mkCycleEnv accepting (Ret tt) (echo 50) (Ret tt) (Ret tt) false false.

(** A target whose query string carries a WebSocket URI of its own. *)
Definition nested_uri : string := "ws://h/?u=ws://a".

(** A library that knows neither [additional_headers] nor [extra_headers]. *)
Definition headerless_library : connect_env :=
  mkConnectEnv
    (Raise (TypeError "connect() got an unexpected keyword argument 'additional_headers'"))
    (Raise (TypeError "connect() got an unexpected keyword argument 'extra_headers'"))
    (Ret a_connection).

(** A library failing with a type error of another kind. *)
Definition mistyped_library : connect_env :=
  mkConnectEnv (Raise (TypeError "ssl must be an SSLContext"))
               (Ret a_connection) (Ret a_connection).

(** An iteration whose [close] raises. *)
Definition broken_close : cycle_env :=
  mkCycleEnv accepting (Ret tt) (echo 50) failing_close (Ret tt) false false.

(** A prompt turn on which the operator types [line]. *)
Definition typed (user_input : string) : prompt_env :=
  mkPromptEnv (Ret user_input) (Ret tt) (Ret tt).

(** * Properties *)

(** ** The session operations, case by case *)

Ltac unfold_monad :=
  unfold bind, catch, ret, emit, modify_stats, get, put_connection, raise,
         await, when, try_finally, result_of, probe_of, trace_of in *.

(** [open_connection] neither reads nor writes the probe. *)
Lemma open_connection_pure (env : connect_env) (q : WebSocketProbe) :
  exists r t, open_connection env q = (r, q, t).
Proof.
  unfold open_connection. unfold_monad.
  destruct (with_additional_headers env) as [c|e]; [eauto|].
  destruct e; eauto.
  destruct (PyStr.contains "additional_headers" msg); eauto.
  destruct (with_extra_headers env) as [c|e]; [eauto|].
  destruct e; eauto.
  destruct (PyStr.contains "extra_headers" msg0); eauto.
Qed.

(** [connect] never raises; it returns [True] with the new connection
    stored, or [False] with the connection untouched. *)
Lemma connect_cases (env : connect_env) (p : WebSocketProbe) :
  (exists c, result_of (connect env p) = Ret true
             /\ probe_of (connect env p) = connected_probe c p)
  \/ (result_of (connect env p) = Ret false
      /\ probe_of (connect env p) = refused_probe p).
Proof.
  unfold connect. unfold_monad. cbn -[open_connection PyStr.startswith].
  set (q := set_stats incr_connection_attempts p).
  destruct (open_connection_pure env q) as (r & t & E).
  destruct (debug p), (PyStr.startswith (uri p) "wss://"),
           (skip_ssl_verify p); cbn -[open_connection]; fold q; rewrite E; cbn;
  (destruct r as [c|e];
   [ left; exists c; split; reflexivity
   | right; destruct e; unfold status_hints; unfold_monad; cbn;
     repeat match goal with
            | |- context [if ?b then _ else _] => destruct b; cbn
            end; split; reflexivity ]).
Qed.

Lemma send_message_not_connected (m : string) (env : send_env)
    (p : WebSocketProbe) :
  connection p = None ->
  send_message m env p = (Ret None, p, [LogNoActiveConnection]).
Proof.
  intros H. unfold send_message. unfold_monad. rewrite H. reflexivity.
Qed.

Lemma send_message_send_raises (m : string) (env : send_env)
    (p : WebSocketProbe) (c : Connection) (e : exn) :
  connection p = Some c ->
  send_result env = Raise e ->
  result_of (send_message m env p) = Ret None
  /\ probe_of (send_message m env p) = p.
Proof.
  intros H Hs. unfold send_message. unfold_monad. rewrite H, Hs.
  destruct e; split; reflexivity.
Qed.

Lemma send_message_reply_raises (m : string) (env : send_env)
    (p : WebSocketProbe) (c : Connection) (e : exn) :
  connection p = Some c ->
  send_result env = Ret tt ->
  recv_result env = Raise e ->
  result_of (send_message m env p) = Ret None
  /\ probe_of (send_message m env p) = set_stats incr_messages_sent p.
Proof.
  intros H Hs Hr. unfold send_message. unfold_monad. rewrite H, Hs, Hr.
  destruct e; split; reflexivity.
Qed.

Lemma send_message_reply (m : string) (env : send_env)
    (p : WebSocketProbe) (c : Connection) (rt : Z) :
  connection p = Some c ->
  send_result env = Ret tt ->
  recv_result env = Ret rt ->
  result_of (send_message m env p) = Ret (Some rt)
  /\ probe_of (send_message m env p)
     = set_stats (record_response rt) (set_stats incr_messages_sent p).
Proof.
  intros H Hs Hr. unfold send_message. unfold_monad. rewrite H, Hs, Hr.
  split; reflexivity.
Qed.

(** [ping_test] never raises and leaves the probe as it was. *)
Lemma ping_test_probe (pong : outcome unit) (p : WebSocketProbe) :
  probe_of (ping_test pong p) = p
  /\ exists b, result_of (ping_test pong p) = Ret b.
Proof.
  unfold ping_test. unfold_monad.
  destruct (connection p); [|cbn; eauto].
  destruct pong as [[]|[]]; cbn; eauto.
Qed.

(** [http_probe] never raises and leaves the probe as it was. *)
Lemma http_probe_probe (server : HttpRequest -> outcome HttpResponse)
    (p : WebSocketProbe) :
  probe_of (http_probe server p) = p
  /\ exists r, result_of (http_probe server p) = Ret r.
Proof.
  unfold http_probe. unfold_monad.
  destruct (server (http_request p)); cbn; eauto.
Qed.

Lemma close_not_connected (closing : outcome unit) (p : WebSocketProbe) :
  connection p = None ->
  close closing p = (Ret tt, p, []).
Proof.
  intros H. unfold close. unfold_monad. rewrite H. reflexivity.
Qed.

Lemma close_connected (closing : outcome unit) (p : WebSocketProbe)
    (c : Connection) :
  connection p = Some c ->
  close closing p =
  match closing with
  | Ret _ => (Ret tt, set_connection (Some (mkConnection true)) p, [LogClosed])
  | Raise e => (Raise e, p, [])
  end.
Proof.
  intros H. unfold close. unfold_monad. rewrite H.
  destruct closing; reflexivity.
Qed.

(** ** How one operation moves the statistics *)

Create HintDb probe.
#[local] Hint Constructors stats_step : probe.

Lemma connect_stats_step (env : connect_env) (p : WebSocketProbe) :
  stats_step (stats p) (stats (probe_of (connect env p))).
Proof.
  destruct (connect_cases env p) as [(c & _ & ->)|[_ ->]]; cbn;
    auto with probe.
Qed.

Lemma send_message_stats_step (m : string) (env : send_env)
    (p : WebSocketProbe) :
  stats_step (stats p) (stats (probe_of (send_message m env p))).
Proof.
  destruct (connection p) as [c|] eqn:Hc.
  - destruct (send_result env) as [[]|e] eqn:Hs.
    + destruct (recv_result env) as [rt|e] eqn:Hr.
      * destruct (send_message_reply m env p c rt Hc Hs Hr) as [_ ->].
        cbn. auto with probe.
      * destruct (send_message_reply_raises m env p c e Hc Hs Hr) as [_ ->].
        cbn. auto with probe.
    + destruct (send_message_send_raises m env p c e Hc Hs) as [_ ->].
      auto with probe.
  - rewrite (send_message_not_connected m env p Hc). cbn. auto with probe.
Qed.

Lemma close_stats (closing : outcome unit) (p : WebSocketProbe) :
  stats (probe_of (close closing p)) = stats p.
Proof.
  destruct (connection p) as [c|] eqn:Hc.
  - rewrite (close_connected closing p c Hc). destruct closing; reflexivity.
  - rewrite (close_not_connected closing p Hc). reflexivity.
Qed.

Lemma bind_ret_probe {A} (m : M A) (p : WebSocketProbe) :
  probe_of ((m ;;; ret tt) p) = probe_of (m p).
Proof.
  unfold_monad. destruct (m p) as [[[a|e] q] t]; reflexivity.
Qed.

Lemma run_op_stats_step (o : op) (p : WebSocketProbe) :
  stats_step (stats p) (stats (probe_of (run_op o p))).
Proof.
  destruct o as [env|m env|pong|server|closing]; cbn [run_op].
  - rewrite bind_ret_probe. apply connect_stats_step.
  - rewrite bind_ret_probe. apply send_message_stats_step.
  - rewrite bind_ret_probe. destruct (ping_test_probe pong p) as [-> _].
    constructor.
  - rewrite bind_ret_probe. destruct (http_probe_probe server p) as [-> _].
    constructor.
  - rewrite close_stats. constructor.
Qed.

(** An invariant of the statistics that every step keeps holds after any
    sequence of operations. *)
Lemma run_ops_invariant (I : Stats -> Prop) :
  (forall s s', stats_step s s' -> I s -> I s') ->
  forall ops p, I (stats p) -> I (stats (run_ops ops p)).
Proof.
  intros Hstep ops. induction ops as [|o ops IH]; intros p Hp; cbn; [exact Hp|].
  apply IH. eapply Hstep; [apply run_op_stats_step | exact Hp].
Qed.

(** ** Connection counters *)

Lemma balanced_step (s s' : Stats) :
  stats_step s s' -> balanced s -> balanced s'.
Proof.
  unfold balanced. intros [] H; cbn; lia.
Qed.

(** C1. [connect] always completes with a boolean; it adds exactly one to
    [connection_attempts] and exactly one to one of
    [successful_connections] / [failed_connections]; and on a session built
    by [__init__], after any sequence of operations (so after every
    completed [connect]) successes plus failures equal the attempts. *)
Theorem connect_counters_balance
    (u : string) (t : Z) (h : list (string * string)) (skip dbg : bool)
    (ops : list op) (env : connect_env) :
  let session := run_ops ops (new_probe u t h skip dbg) in
  let s := stats session in
  let s' := stats (probe_of (connect env session)) in
  (exists b, result_of (connect env session) = Ret b)
  /\ connection_attempts s' = connection_attempts s + 1
  /\ ((successful_connections s' = successful_connections s + 1
       /\ failed_connections s' = failed_connections s)
      \/ (successful_connections s' = successful_connections s
          /\ failed_connections s' = failed_connections s + 1))
  /\ balanced s
  /\ balanced s'.
Proof.
  intros session s s'.
  assert (Hs : balanced s).
  { apply (run_ops_invariant balanced balanced_step). reflexivity. }
  subst s'. unfold balanced in *.
  destruct (connect_cases env session) as [(c & Hr & ->)|[Hr ->]];
    rewrite Hr; cbn; fold s; repeat split; eauto; lia.
Qed.

(** ** Message counters *)

Lemma received_le_sent_step (s s' : Stats) :
  stats_step s s' -> received_le_sent s -> received_le_sent s'.
Proof.
  unfold received_le_sent. intros [] H; cbn; lia.
Qed.

(** C10. Once [connection.send] has returned, [messages_sent] is counted
    whatever the wait for the reply raises (timeout, closed connection,
    anything else), with [messages_received] unchanged; and after any
    sequence of connect / send_message / ping_test / close on one session,
    [messages_received <= messages_sent]. *)
Theorem sent_counted_before_reply
    (u : string) (t : Z) (h : list (string * string)) (skip dbg : bool)
    (ops : list op) (p : WebSocketProbe) (c : Connection) (m : string)
    (e : exn) :
  let open := set_connection (Some c) p in
  let after := probe_of (send_message m (mkSendEnv (Ret tt) (Raise e)) open) in
  result_of (send_message m (mkSendEnv (Ret tt) (Raise e)) open) = Ret None
  /\ messages_sent (stats after) = messages_sent (stats p) + 1
  /\ messages_received (stats after) = messages_received (stats p)
  /\ received_le_sent (stats (run_ops ops (new_probe u t h skip dbg))).
Proof.
  intros open after.
  destruct (send_message_reply_raises m (mkSendEnv (Ret tt) (Raise e)) open c e
              eq_refl eq_refl eq_refl) as [Hr Hp].
  subst after. rewrite Hr, Hp. cbn. repeat split.
  apply (run_ops_invariant received_le_sent received_le_sent_step).
  unfold received_le_sent. cbn. lia.
Qed.

(** C6. On a session holding a connection: when the frame is sent and a
    reply arrives with measured response time [rt], [send_message] returns
    [rt], adds one to [messages_sent] and to [messages_received], adds [rt]
    to [total_response_time], makes [min_response_time] the smaller of the
    old minimum and [rt] ([rt] itself while the minimum is still infinite)
    and [max_response_time] the larger of the old maximum and [rt], leaving
    the connection counters alone; when the wait for the reply times out it
    returns [None] and [messages_received] is unchanged. *)
Theorem send_message_folds_latency
    (p : WebSocketProbe) (c : Connection) (m : string) (rt : Z) :
  connection p = Some c ->
  let ok := send_message m (mkSendEnv (Ret tt) (Ret rt)) p in
  let late := send_message m (mkSendEnv (Ret tt) (Raise TimeoutError)) p in
  let s := stats p in
  (result_of ok = Ret (Some rt)
   /\ messages_sent (stats (probe_of ok)) = messages_sent s + 1
   /\ messages_received (stats (probe_of ok)) = messages_received s + 1
   /\ total_response_time (stats (probe_of ok))
      = Fplus (total_response_time s) (Fnum rt)
   /\ min_response_time (stats (probe_of ok))
      = match min_response_time s with
        | Inf => Fin rt
        | Fin least => Fin (if rt <? least then rt else least)
        end
   /\ max_response_time (stats (probe_of ok))
      = (if max_response_time s <? rt then rt else max_response_time s)
   /\ connection_attempts (stats (probe_of ok)) = connection_attempts s
   /\ successful_connections (stats (probe_of ok)) = successful_connections s
   /\ failed_connections (stats (probe_of ok)) = failed_connections s)
  /\ (result_of late = Ret None
      /\ messages_received (stats (probe_of late)) = messages_received s
      /\ trace_of late = [LogSent (PyStr.take 100 m); LogReplyTimeout]).
Proof.
  intros Hc ok late s.
  destruct (send_message_reply m (mkSendEnv (Ret tt) (Ret rt)) p c rt
              Hc eq_refl eq_refl) as [Hr Hp].
  destruct (send_message_reply_raises m (mkSendEnv (Ret tt) (Raise TimeoutError))
              p c TimeoutError Hc eq_refl eq_refl) as [Hr' Hp'].
  subst ok late s. rewrite Hr, Hp, Hr', Hp'. cbn -[Z.ltb Z.min Z.max].
  split.
  - repeat split.
    + unfold rmin. destruct (min_response_time (stats p)) as [least|];
        [|reflexivity].
      f_equal. destruct (Z.ltb_spec rt least); lia.
    + destruct (Z.ltb_spec (max_response_time (stats p)) rt); lia.
  - repeat split.
    unfold send_message. unfold_monad. rewrite Hc. reflexivity.
Qed.

Lemma send_message_folds_latency_witness :
  let ok := send_message "ping" (mkSendEnv (Ret tt) (Ret 50)) a_session in
  result_of ok = Ret (Some 50)
  /\ messages_sent (stats (probe_of ok)) = 1
  /\ messages_received (stats (probe_of ok)) = 1
  /\ total_response_time (stats (probe_of ok)) = Fplus Fzero (Fnum 50)
  /\ min_response_time (stats (probe_of ok)) = Fin 50
  /\ max_response_time (stats (probe_of ok)) = 50.
Proof.
  destruct (send_message_folds_latency a_session a_connection "ping" 50
              eq_refl) as [(H1 & H2 & H3 & H4 & H5 & H6 & _) _].
  repeat split; assumption.
Defined.

(** ** The connection handle *)

Lemma connect_handle (env : connect_env) (p : WebSocketProbe) :
  has_handle (probe_of (connect env p))
  = (connect_succeeds env p || has_handle p)%bool.
Proof.
  unfold connect_succeeds, has_handle.
  destruct (connect_cases env p) as [(c & -> & ->)|[-> ->]]; reflexivity.
Qed.

Lemma send_message_handle (m : string) (env : send_env) (p : WebSocketProbe) :
  connection (probe_of (send_message m env p)) = connection p.
Proof.
  destruct (connection p) as [c|] eqn:Hc.
  - destruct (send_result env) as [[]|e] eqn:Hs.
    + destruct (recv_result env) as [rt|e] eqn:Hr.
      * destruct (send_message_reply m env p c rt Hc Hs Hr) as [_ ->].
        exact Hc.
      * destruct (send_message_reply_raises m env p c e Hc Hs Hr) as [_ ->].
        exact Hc.
    + destruct (send_message_send_raises m env p c e Hc Hs) as [_ ->].
      exact Hc.
  - rewrite (send_message_not_connected m env p Hc). exact Hc.
Qed.

Lemma close_handle (closing : outcome unit) (p : WebSocketProbe) :
  has_handle (probe_of (close closing p)) = has_handle p.
Proof.
  unfold has_handle. destruct (connection p) as [c|] eqn:Hc.
  - rewrite (close_connected closing p c Hc).
    destruct closing; cbn; [reflexivity | rewrite Hc; reflexivity].
  - rewrite (close_not_connected closing p Hc). cbn. rewrite Hc. reflexivity.
Qed.

(** Only a succeeding [connect] changes whether a handle is stored, and it
    can only add one. *)
Lemma run_op_handle (o : op) (p : WebSocketProbe) :
  has_handle (probe_of (run_op o p))
  = (match o with
     | Connect env => connect_succeeds env p
     | _ => false
     end || has_handle p)%bool.
Proof.
  destruct o as [env|m env|pong|server|closing]; cbn [run_op].
  - rewrite bind_ret_probe. apply connect_handle.
  - rewrite bind_ret_probe. unfold has_handle.
    rewrite send_message_handle. reflexivity.
  - rewrite bind_ret_probe. destruct (ping_test_probe pong p) as [-> _].
    reflexivity.
  - rewrite bind_ret_probe. destruct (http_probe_probe server p) as [-> _].
    reflexivity.
  - apply close_handle.
Qed.

Lemma run_ops_handle (ops : list op) (p : WebSocketProbe) :
  has_handle (run_ops ops p)
  = (negb (never_connected ops p) || has_handle p)%bool.
Proof.
  revert p. induction ops as [|o ops IH]; intros p; cbn [run_ops never_connected].
  - reflexivity.
  - rewrite IH, run_op_handle.
    destruct o; cbn;
      repeat match goal with
             | |- context [connect_succeeds ?e ?q] =>
                 destruct (connect_succeeds e q); cbn
             | |- context [never_connected ?l ?q] =>
                 destruct (never_connected l q); cbn
             | |- context [has_handle ?q] => destruct (has_handle q); cbn
             end; reflexivity.
Qed.

(** C7. On a session on which no [connect] has succeeded, [send_message]
    returns [None] at once, logging only that there is no active
    connection, and leaves the whole session (all of [stats] included)
    as it was. *)
Theorem send_message_never_connected
    (u : string) (t : Z) (h : list (string * string)) (skip dbg : bool)
    (ops : list op) (m : string) (env : send_env) :
  let fresh := new_probe u t h skip dbg in
  never_connected ops fresh = true ->
  connection (run_ops ops fresh) = None
  /\ send_message m env (run_ops ops fresh)
     = (Ret None, run_ops ops fresh, [LogNoActiveConnection]).
Proof.
  intros fresh Hn.
  assert (Hc : connection (run_ops ops fresh) = None).
  { pose proof (run_ops_handle ops fresh) as H. rewrite Hn in H.
    unfold has_handle in H. cbn in H.
    destruct (connection (run_ops ops fresh)); [discriminate H | reflexivity]. }
  split; [exact Hc|]. apply send_message_not_connected. exact Hc.
Qed.

Lemma send_message_never_connected_witness :
  send_message "ping" (echo 50)
    (run_ops [Connect refusing; Close (Ret tt)] (new_probe "ws://h/" 5 [] false false))
  = (Ret None,
     run_ops [Connect refusing; Close (Ret tt)] (new_probe "ws://h/" 5 [] false false),
     [LogNoActiveConnection]).
Proof.
  exact (proj2 (send_message_never_connected "ws://h/" 5 [] false false
                  [Connect refusing; Close (Ret tt)] "ping" (echo 50) eq_refl)).
Defined.

(** C4, as stated, fails: after connect and close the closed connection is
    still stored in [self.connection], and a later failing connect does not
    remove it either; and [close] on a session that holds a connection
    fails when the library's [close] raises, for it has no handler. *)
Lemma handle_survives_close :
  spec_handle_present [Connect accepting; Close (Ret tt)] fresh_session false
  = false
  /\ connection (run_ops [Connect accepting; Close (Ret tt)] fresh_session)
     = Some (mkConnection true)
  /\ spec_handle_present
       [Connect accepting; Close (Ret tt); Connect refusing] fresh_session false
     = false
  /\ connection
       (run_ops [Connect accepting; Close (Ret tt); Connect refusing]
                fresh_session)
     = Some (mkConnection true)
  /\ result_of (close failing_close a_session)
     = Raise (OtherException "close failed").
Proof.
  repeat split; reflexivity.
Qed.

(** C4, amended. On a session built by [__init__] a handle is stored exactly
    when some [connect] of the sequence has succeeded: it is absent at
    construction and stays absent through failing connects and closes; once
    stored it stays.  [close] changes neither the statistics nor whether a
    handle is stored.  On a session without a handle it does nothing and
    returns.  On a session with a handle it calls the library's [close] and
    ends as that does: when the library returns, the stored connection is
    now closed, the closing is logged and [close] returns; when the library
    raises, [close] raises the same and the session is as before.  When the
    library returns, closing again gives the same session. *)
Theorem handle_stored_from_first_success
    (u : string) (t : Z) (h : list (string * string)) (skip dbg : bool)
    (ops : list op) (p : WebSocketProbe) (c : Connection)
    (closing : outcome unit) :
  let fresh := new_probe u t h skip dbg in
  has_handle fresh = false
  /\ has_handle (run_ops ops fresh) = negb (never_connected ops fresh)
  /\ stats (probe_of (close closing p)) = stats p
  /\ has_handle (probe_of (close closing p)) = has_handle p
  /\ close closing (set_connection None p) = (Ret tt, set_connection None p, [])
  /\ close closing (set_connection (Some c) p)
     = match closing with
       | Ret _ =>
           (Ret tt, set_connection (Some (mkConnection true)) p, [LogClosed])
       | Raise e => (Raise e, set_connection (Some c) p, [])
       end
  /\ result_of (close (Ret tt) p) = Ret tt
  /\ probe_of (close (Ret tt) (probe_of (close (Ret tt) p)))
     = probe_of (close (Ret tt) p).
Proof.
  intros fresh. split; [reflexivity|].
  split.
  { rewrite run_ops_handle. cbn. apply orb_false_r. }
  split; [apply close_stats|].
  split; [apply close_handle|].
  split; [apply close_not_connected; reflexivity|].
  split.
  { rewrite (close_connected closing (set_connection (Some c) p) c eq_refl).
    destruct closing; reflexivity. }
  destruct (connection p) as [c'|] eqn:Hc.
  - rewrite (close_connected (Ret tt) p c' Hc). cbn. split; reflexivity.
  - repeat (rewrite (close_not_connected (Ret tt) p Hc);
            unfold probe_of, result_of; cbn [fst snd]).
    split; reflexivity.
Qed.

(** ** Rejected handshakes *)

Lemma open_connection_indep (env : connect_env) (p q : WebSocketProbe) :
  open_connection env q
  = (result_of (open_connection env p), q, trace_of (open_connection env p)).
Proof.
  unfold open_connection. unfold_monad.
  destruct (with_additional_headers env) as [c|e]; [reflexivity|].
  destruct e; try reflexivity.
  destruct (PyStr.contains "additional_headers" msg); [|reflexivity].
  destruct (with_extra_headers env) as [c|e]; [reflexivity|].
  destruct e; try reflexivity.
  destruct (PyStr.contains "extra_headers" msg0); reflexivity.
Qed.

(** C8. When the handshake is rejected with an invalid-status exception
    carrying HTTP status 200, [connect] returns [False], reads status code
    200 off the exception, logs the failure with that code followed by the
    plain-HTTP-service hint, and counts one failed connection and no
    successful one. *)
Theorem connect_rejected_with_200
    (p : WebSocketProbe) (env : connect_env)
    (sc : option Z) (resp : option Response) :
  carries_status sc resp 200 ->
  result_of (open_connection env p) = Raise (InvalidStatus sc resp) ->
  extract_status sc resp = Code 200
  /\ result_of (connect env p) = Ret false
  /\ failed_connections (stats (probe_of (connect env p)))
     = failed_connections (stats p) + 1
  /\ successful_connections (stats (probe_of (connect env p)))
     = successful_connections (stats p)
  /\ connection (probe_of (connect env p)) = connection p
  /\ exists before,
       trace_of (connect env p)
       = before ++ [LogStatusFailed (Code 200); LogHintPlainHttp; LogHintCheckUrl].
Proof.
  intros Hs Hr.
  assert (Hx : extract_status sc resp = Code 200).
  { destruct Hs as [->|[-> ->]]; reflexivity. }
  split; [exact Hx|].
  unfold connect. unfold_monad. cbn -[open_connection PyStr.startswith].
  set (q := set_stats incr_connection_attempts p).
  pose proof (open_connection_indep env p q) as E.
  unfold result_of in Hr, E. rewrite Hr in E. clear Hr.
  set (t := trace_of (open_connection env p)) in *.
  destruct (debug p), (PyStr.startswith (uri p) "wss://"),
           (skip_ssl_verify p);
    cbn -[open_connection]; fold q; rewrite E; cbn; rewrite Hx; cbn;
    repeat split; repeat rewrite app_comm_cons; eexists; reflexivity.
Qed.

Lemma connect_rejected_with_200_witness :
  result_of (connect rejecting_200 fresh_session) = Ret false.
Proof.
  exact (proj1 (proj2
    (connect_rejected_with_200 fresh_session rejecting_200 None
       (Some (mkResponse 200)) (or_intror (conj eq_refl eq_refl)) eq_refl))).
Defined.

(** ** Merging statistics *)

(** The loop over the keys, in closed form. *)
Lemma merge_fields (total result : Stats) :
  merge total result =
  mkStats (connection_attempts total + connection_attempts result)
          (successful_connections total + successful_connections result)
          (failed_connections total + failed_connections result)
          (messages_sent total + messages_sent result)
          (messages_received total + messages_received result)
          (Fplus (total_response_time total) (total_response_time result))
          (rmin2 (min_response_time total) (min_response_time result))
          (Z.max (max_response_time total) (max_response_time result)).
Proof.
  unfold merge, keys. cbn. destruct (min_response_time result); reflexivity.
Qed.

Lemma latency_wf_step (s s' : Stats) :
  stats_step s s' -> latency_wf s -> latency_wf s'.
Proof.
  unfold latency_wf. intros [] (H0 & H1 & H2); cbn;
    (split; [lia | split; [lia|]]);
    intros H; try (exfalso; lia); apply H2 in H; tauto.
Qed.

(** A session with no received message still has the initial extrema. *)
Lemma zero_receive_extrema
    (u : string) (t : Z) (h : list (string * string)) (skip dbg : bool)
    (ops : list op) :
  let s := stats (run_ops ops (new_probe u t h skip dbg)) in
  0 <= max_response_time s
  /\ (messages_received s = 0 ->
      min_response_time s = Inf /\ max_response_time s = 0).
Proof.
  intros s.
  assert (H : latency_wf s).
  { apply (run_ops_invariant latency_wf latency_wf_step).
    unfold latency_wf. cbn. repeat split; lia. }
  destruct H as (_ & H1 & H2). split; [exact H1|]. intros H. apply H2 in H.
  tauto.
Qed.

Lemma aggregate_fold (results : list (outcome Stats)) :
  aggregate results = fold_left fold_result results init_stats.
Proof. reflexivity. Qed.

(** The running total of [stress_test] never has a negative maximum. *)
Lemma fold_result_max_nonneg (results : list (outcome Stats)) (total : Stats) :
  0 <= max_response_time total ->
  0 <= max_response_time (fold_left fold_result results total).
Proof.
  revert total.
  induction results as [|r results IH]; intros total H; cbn [fold_left].
  - exact H.
  - apply IH. destruct r as [s|e]; cbn [fold_result]; [|exact H].
    rewrite merge_fields. cbn. lia.
Qed.

Lemma aggregate_max_nonneg (results : list (outcome Stats)) :
  0 <= max_response_time (aggregate results).
Proof.
  rewrite aggregate_fold. apply fold_result_max_nonneg. cbn. lia.
Qed.

(** C2. Merging into a total [t] a record [r] that received no message
    (minimum still [Inf], maximum still 0) leaves the minimum and the
    maximum of [t] as they were, and adds up every other entry.  The total
    has a non-negative maximum, as every record the program builds has
    ([zero_receive_extrema], [aggregate_max_nonneg]). *)
Theorem merge_zero_receive_identity (t r : Stats) :
  min_response_time r = Inf ->
  max_response_time r = 0 ->
  0 <= max_response_time t ->
  min_response_time (merge t r) = min_response_time t
  /\ max_response_time (merge t r) = max_response_time t
  /\ connection_attempts (merge t r)
     = connection_attempts t + connection_attempts r
  /\ successful_connections (merge t r)
     = successful_connections t + successful_connections r
  /\ failed_connections (merge t r)
     = failed_connections t + failed_connections r
  /\ messages_sent (merge t r) = messages_sent t + messages_sent r
  /\ messages_received (merge t r)
     = messages_received t + messages_received r
  /\ total_response_time (merge t r)
     = Fplus (total_response_time t) (total_response_time r).
Proof.
  intros Hmin Hmax Ht. rewrite merge_fields. cbn. rewrite Hmin, Hmax. cbn.
  repeat split. lia.
Qed.

Lemma merge_zero_receive_identity_witness :
  min_response_time (merge one_echo one_refusal) = Fin 50
  /\ max_response_time (merge one_echo one_refusal) = 50.
Proof.
  destruct (merge_zero_receive_identity one_echo one_refusal
              eq_refl eq_refl ltac:(discriminate)) as (Hmin & Hmax & _).
  split; [exact Hmin | exact Hmax].
Defined.

(** ** Stress test *)

Lemma send_message_returns (m : string) (env : send_env) (p : WebSocketProbe) :
  exists r q t,
    send_message m env p = (Ret r, q, t)
    /\ connection_attempts (stats q) = connection_attempts (stats p).
Proof.
  unfold send_message. unfold_monad.
  destruct (connection p); [|eauto].
  destruct (send_result env) as [[]|[]]; cbn; eauto;
  destruct (recv_result env) as [rt|[]]; cbn; eauto.
Qed.

(** A trial that returns has made exactly one connection attempt. *)
Lemma single_test_one_attempt (u m : string) (h : list (string * string))
    (skip : bool) (e : trial_env) (s : Stats) :
  single_test u m h skip e = Ret s -> connection_attempts s = 1.
Proof.
  unfold single_test.
  set (probe := new_probe u 5 h skip false).
  unfold try_finally, bind, result_of.
  pose proof (connect_cases (tr_connect e) probe) as Hc.
  unfold result_of, probe_of in Hc.
  destruct (connect (tr_connect e) probe) as [[r p1] t1]. cbn [fst snd] in Hc.
  destruct Hc as [(c & -> & ->)|[-> ->]]; cbn [when].
  - destruct (send_message_returns m (tr_send e) (connected_probe c probe))
      as (r & q & t & -> & Hq).
    unfold_monad. cbn [fst snd].
    destruct (close (tr_close e) q) as [[[[]|x] q'] t']; cbn; intros [= <-];
      exact Hq.
  - unfold_monad. cbn [fst snd].
    destruct (close (tr_close e) (refused_probe probe)) as [[[[]|x] q'] t'];
      cbn; intros [= <-]; reflexivity.
Qed.

Lemma fold_result_attempts (results : list (outcome Stats)) (total : Stats) :
  connection_attempts (fold_left fold_result results total)
  = connection_attempts total + fold_right Z.add 0 (map attempts_of results).
Proof.
  revert total.
  induction results as [|r results IH]; intros total; cbn [fold_left map fold_right].
  - lia.
  - rewrite IH. destruct r as [s|e]; cbn [fold_result attempts_of].
    + rewrite merge_fields. cbn. lia.
    + lia.
Qed.

(** Entries that are exceptions leave the total as it is. *)
Lemma fold_result_skips_raised (results : list (outcome Stats)) (total : Stats) :
  fold_left fold_result results total
  = fold_left fold_result (filter returned results) total.
Proof.
  revert total.
  induction results as [|r results IH]; intros total; [reflexivity|].
  destruct r as [s|e]; cbn [filter returned fold_left fold_result]; apply IH.
Qed.

Lemma gather_attempts (u m : string) (h : list (string * string))
    (skip : bool) (envs : nat -> trial_env) (l : list nat) :
  fold_right Z.add 0
    (map attempts_of (map (fun i => single_test u m h skip (envs i)) l))
  = Z.of_nat
      (List.length (filter returned
                 (map (fun i => single_test u m h skip (envs i)) l))).
Proof.
  induction l as [|i l IH]; [reflexivity|].
  cbn [map fold_right filter].
  destruct (single_test u m h skip (envs i)) as [s|e] eqn:E;
    cbn [attempts_of returned].
  - rewrite (single_test_one_attempt _ _ _ _ _ _ E), IH.
    cbn [List.length]. lia.
  - rewrite IH. lia.
Qed.

Lemma filter_all {A} (f : A -> bool) (l : list A) :
  forallb f l = true -> filter f l = l.
Proof.
  induction l as [|a l IH]; cbn; [reflexivity|].
  destruct (f a); cbn; [|discriminate]. intros H. rewrite IH; auto.
Qed.

(** C3, as stated, fails: a trial whose [close] raises is an exception entry
    of [results]; the merge skips it, so it adds nothing to
    [connection_attempts] or [failed_connections] and the total of a
    one-trial run reports no attempt at all. *)
Lemma raising_trial_is_dropped :
  single_test "ws://h/" "ping" [] false faulty_trial
  = Raise (OtherException "close failed")
  /\ exists total,
       stress_test "ws://h/" 1 1 "ping" [] false (fun _ => faulty_trial)
       = Some (Ret total)
       /\ connection_attempts total = 0
       /\ failed_connections total = 0
       /\ connection_attempts total <> 1.
Proof.
  split; [reflexivity|]. eexists. split; [reflexivity|].
  repeat split; try reflexivity. discriminate.
Qed.

(** C3, amended. With a positive [concurrency] the stress test runs to its
    total.  [gather] has one entry per trial, each the outcome of that
    trial alone; entries that are exceptions are skipped by the
    aggregation, adding nothing to any counter; the total's
    [connection_attempts] is the number of trials that returned their
    statistics, which is [count] when no trial raises. *)
Theorem stress_test_counts_returned_trials
    (u : string) (count concurrency : Z) (m : string)
    (h : list (string * string)) (skip : bool) (envs : nat -> trial_env) :
  0 < concurrency ->
  let results := gather u m h skip count envs in
  exists total,
    stress_test u count concurrency m h skip envs = Some (Ret total)
    /\ List.length results = Z.to_nat count
    /\ (forall i, (i < Z.to_nat count)%nat ->
          nth_error results i = Some (single_test u m h skip (envs i)))
    /\ total = aggregate (filter returned results)
    /\ connection_attempts total = Z.of_nat (List.length (filter returned results))
    /\ (forallb returned results = true ->
        connection_attempts total = Z.max 0 count).
Proof.
  intros Hconc results.
  exists (aggregate results). split.
  { unfold stress_test.
    destruct (Z.ltb_spec concurrency 0); [lia|].
    destruct (Z.eqb_spec concurrency 0); [lia|]. reflexivity. }
  assert (Hlen : List.length results = Z.to_nat count).
  { unfold results, gather. rewrite List.length_map, List.length_seq. reflexivity. }
  assert (Hatt : connection_attempts (aggregate results)
                 = Z.of_nat (List.length (filter returned results))).
  { rewrite aggregate_fold.
    rewrite fold_result_attempts. unfold results, gather.
    rewrite gather_attempts. cbn. reflexivity. }
  split; [exact Hlen|]. split.
  { intros i Hi. unfold results, gather.
    rewrite nth_error_map, nth_error_seq.
    destruct (Nat.ltb_spec i (Z.to_nat count)); [reflexivity | lia]. }
  split.
  { rewrite !aggregate_fold. apply fold_result_skips_raised. }
  split; [exact Hatt|].
  intros Hall. rewrite Hatt, (filter_all _ _ Hall), Hlen. lia.
Qed.

Lemma stress_test_counts_returned_trials_witness :
  exists total,
    stress_test "ws://h/" 3 2 "ping" [] false (fun _ => sound_trial)
    = Some (Ret total)
    /\ connection_attempts total = 3.
Proof.
  destruct (stress_test_counts_returned_trials "ws://h/" 3 2 "ping" [] false
              (fun _ => sound_trial) eq_refl)
    as (total & E & _ & _ & _ & _ & H).
  exists total. split; [exact E | exact (H eq_refl)].
Defined.

(** ** Continuous probe *)

Lemma count_events_app (f : event -> bool) (a b : list event) :
  count_events f (a ++ b) = (count_events f a + count_events f b)%nat.
Proof.
  unfold count_events. rewrite filter_app, List.length_app. reflexivity.
Qed.

Lemma quiet_app (a b : list event) : quiet a -> quiet b -> quiet (a ++ b).
Proof.
  unfold quiet. intros [A1 A2] [B1 B2]. rewrite !count_events_app. lia.
Qed.

Lemma open_connection_quiet (env : connect_env) (p : WebSocketProbe) :
  quiet (trace_of (open_connection env p)).
Proof.
  unfold open_connection. unfold_monad.
  destruct (with_additional_headers env) as [c|e]; [split; reflexivity|].
  destruct e; try (split; reflexivity).
  destruct (PyStr.contains "additional_headers" msg); [|split; reflexivity].
  destruct (with_extra_headers env) as [c|e]; [split; reflexivity|].
  destruct e; try (split; reflexivity).
  destruct (PyStr.contains "extra_headers" msg0); [|split; reflexivity].
  destruct (without_headers env); split; reflexivity.
Qed.

(** [connect] logs exactly one connection start and prints no statistics. *)
Lemma connect_trace (env : connect_env) (p : WebSocketProbe) :
  count_events is_connecting (trace_of (connect env p)) = 1%nat
  /\ count_events is_print_stats (trace_of (connect env p)) = 0%nat.
Proof.
  unfold connect. unfold_monad. cbn -[open_connection PyStr.startswith].
  set (q := set_stats incr_connection_attempts p).
  pose proof (open_connection_quiet env q) as [Q1 Q2].
  unfold trace_of in Q1, Q2.
  destruct (open_connection env q) as [[r q1] t] eqn:E. cbn [snd] in Q1, Q2.
  destruct (debug p), (PyStr.startswith (uri p) "wss://"),
           (skip_ssl_verify p); cbn -[open_connection]; fold q; rewrite E; cbn;
  (destruct r as [c|e];
   [ | destruct e; unfold status_hints; unfold_monad; cbn;
       repeat match goal with
              | |- context [if ?b then _ else _] => destruct b; cbn
              end ]);
  unfold count_events in *; cbn; rewrite ?filter_app, ?List.length_app;
  cbn; rewrite ?Q1, ?Q2; split; reflexivity.
Qed.

Lemma send_message_quiet (m : string) (env : send_env) (p : WebSocketProbe) :
  quiet (trace_of (send_message m env p)).
Proof.
  unfold send_message. unfold_monad.
  destruct (connection p); [|split; reflexivity].
  destruct (send_result env) as [[]|[]]; cbn; try (split; reflexivity);
  destruct (recv_result env) as [rt|[]]; cbn; split; reflexivity.
Qed.

Lemma ping_test_quiet (pong : outcome unit) (p : WebSocketProbe) :
  quiet (trace_of (ping_test pong p)).
Proof.
  unfold ping_test. unfold_monad.
  destruct (connection p); [|split; reflexivity].
  destruct pong as [[]|[]]; cbn; split; reflexivity.
Qed.

Lemma close_quiet (closing : outcome unit) (p : WebSocketProbe) :
  quiet (trace_of (close closing p)).
Proof.
  unfold close. unfold_monad.
  destruct (connection p); [|split; reflexivity].
  destruct closing as [[]|e]; cbn; split; reflexivity.
Qed.

Lemma close_returns (p : WebSocketProbe) : result_of (close (Ret tt) p) = Ret tt.
Proof.
  unfold close. unfold_monad. destruct (connection p); reflexivity.
Qed.

(** One probe cycle: one connection attempt, one connection start in the
    trace, no statistics printed; it can only raise through [close]. *)
Lemma probe_cycle_facts (m : string) (e : cycle_env) (p : WebSocketProbe) :
  connection_attempts (stats (probe_of (probe_cycle m e p)))
  = connection_attempts (stats p) + 1
  /\ count_events is_connecting (trace_of (probe_cycle m e p)) = 1%nat
  /\ count_events is_print_stats (trace_of (probe_cycle m e p)) = 0%nat
  /\ (cy_close e = Ret tt -> result_of (probe_cycle m e p) = Ret tt).
Proof.
  unfold probe_cycle, bind.
  pose proof (connect_cases (cy_connect e) p) as Hc.
  pose proof (connect_trace (cy_connect e) p) as [T1 T2].
  unfold result_of, probe_of, trace_of in *.
  destruct (connect (cy_connect e) p) as [[rc p1] t1]. cbn [fst snd] in *.
  destruct Hc as [(c & -> & ->)|[-> ->]].
  - pose proof (ping_test_probe (cy_ping e) (connected_probe c p)) as [Hp [b Hb]].
    pose proof (ping_test_quiet (cy_ping e) (connected_probe c p)) as [P1 P2].
    unfold result_of, probe_of, trace_of in *.
    destruct (ping_test (cy_ping e) (connected_probe c p)) as [[rp p2] t2].
    cbn [fst snd] in *. subst rp p2.
    pose proof (send_message_quiet m (cy_send e) (connected_probe c p)) as [S1 S2].
    destruct (send_message_returns m (cy_send e) (connected_probe c p))
      as (r & q & t & Es & Hq).
    unfold trace_of in *. rewrite Es in *. cbn [fst snd] in *.
    pose proof (close_stats (cy_close e) q) as Hs.
    pose proof (close_quiet (cy_close e) q) as [C1 C2].
    pose proof (close_returns q) as Hr.
    unfold result_of, probe_of, trace_of in *.
    destruct (cy_close e) as [[]|x];
      destruct (close _ q) as [[rcl p4] t4]; cbn [fst snd] in *;
      rewrite !count_events_app, Hs, Hq, T1, T2, P1, P2, S1, S2, C1, C2;
      cbn; repeat split; try lia; try discriminate.
    intros _. rewrite Hr. reflexivity.
  - cbn -[count_events]. rewrite !count_events_app, T1, T2. cbn.
    repeat split; lia.
Qed.

Lemma probe_loop_stopped (interval : Z) (m : string) (envs : list cycle_env)
    (p : WebSocketProbe) :
  probe_loop interval m (mkRunner false) envs p = Some (Ret tt, p, []).
Proof. destruct envs; reflexivity. Qed.

Lemma deliver_after_signal (b : bool) (self : WebSocketProbeRunner) :
  deliver b (signal_handler self) = mkRunner false.
Proof. destruct b; reflexivity. Qed.

(** With the interrupt delivered during the first iteration, the loop is
    that iteration's cycle, followed at most by its sleep. *)
Lemma probe_loop_first_cycle (interval : Z) (m : string) (e : cycle_env)
    (rest : list cycle_env) (p : WebSocketProbe) :
  (interrupt_in_cycle e || interrupt_in_sleep e)%bool = true ->
  probe_loop interval m (mkRunner true) (e :: rest) p
  = Some ((probe_cycle m e ;;; pause interval e) p).
Proof.
  intros Hint. cbn [probe_loop running].
  unfold pause, when, bind, emit, await, ret.
  destruct (probe_cycle m e p) as [[[[]|x] p1] t1]; [|reflexivity].
  destruct (interrupt_in_cycle e).
  - rewrite deliver_after_signal. cbn [deliver running signal_handler].
    cbv beta iota. rewrite probe_loop_stopped. reflexivity.
  - cbn in Hint. rewrite Hint. cbn [deliver running signal_handler].
    cbv beta iota.
    destruct (cy_sleep e) as [[]|x]; [|reflexivity].
    rewrite probe_loop_stopped. reflexivity.
Qed.

(** The pause changes nothing in the session and adds no connection start
    and no statistics print-out to the trace. *)
Lemma cycle_then_pause (interval : Z) (m : string) (e : cycle_env)
    (p : WebSocketProbe) :
  exists r tb,
    (probe_cycle m e ;;; pause interval e) p
    = (r, probe_of (probe_cycle m e p), trace_of (probe_cycle m e p) ++ tb)
    /\ quiet tb
    /\ (result_of (probe_cycle m e p) = Ret tt -> cy_sleep e = Ret tt ->
        r = Ret tt).
Proof.
  unfold pause, bind, emit, await, ret, result_of, probe_of, trace_of.
  destruct (probe_cycle m e p) as [[[[]|x] p1] t1]; cbn [fst snd].
  - destruct (interrupt_in_cycle e).
    + do 2 eexists. split; [reflexivity|]. split; [split; reflexivity|auto].
    + destruct (cy_sleep e) as [[]|x]; do 2 eexists;
        (split; [reflexivity|]); (split; [split; reflexivity|]);
        auto; discriminate.
  - exists (Raise x), []. rewrite app_nil_r. split; [reflexivity|].
    split; [split; reflexivity|]. discriminate.
Qed.




(** ** HTTP fallback: the URL of the GET *)

Lemma replace_absent (old new s : string) :
  PyStr.contains old s = false -> PyStr.replace s old new = s.
Proof.
  unfold PyStr.replace.
  induction s as [|c s IH]; intros H; [reflexivity|].
  cbn [PyStr.contains] in H. apply orb_false_iff in H. destruct H as [Hp Hs].
  cbn [PyStr.replace_from]. rewrite Hp, (IH Hs). reflexivity.
Qed.

Lemma prefix_empty (s : string) : String.prefix "" s = true.
Proof. destruct s; reflexivity. Qed.

(** A [ws://] URI with no further [ws://] or [wss://] inside: only the
    scheme is rewritten. *)
Lemma http_url_plain_ws (rest : string) :
  PyStr.contains "ws://" rest = false ->
  PyStr.contains "wss://" rest = false ->
  http_url ("ws://" ++ rest) = ("http://" ++ rest)%string.
Proof.
  intros H1 H2. unfold http_url.
  assert (E : PyStr.replace ("ws://" ++ rest) "ws://" "http://"
              = ("http://" ++ rest)%string).
  { unfold PyStr.replace. cbn. rewrite ?prefix_empty. cbn.
    change (PyStr.replace_from 0 "ws://" "http://" rest)
      with (PyStr.replace rest "ws://" "http://").
    rewrite (replace_absent _ _ _ H1). reflexivity. }
  rewrite E. unfold PyStr.replace. cbn. rewrite ?prefix_empty. cbn.
  change (PyStr.replace_from 0 "wss://" "https://" rest)
    with (PyStr.replace rest "wss://" "https://").
  rewrite (replace_absent _ _ _ H2). reflexivity.
Qed.

Lemma http_url_plain_wss (rest : string) :
  PyStr.contains "ws://" rest = false ->
  PyStr.contains "wss://" rest = false ->
  http_url ("wss://" ++ rest) = ("https://" ++ rest)%string.
Proof.
  intros H1 H2. unfold http_url.
  assert (E : PyStr.replace ("wss://" ++ rest) "ws://" "http://"
              = ("wss://" ++ rest)%string).
  { unfold PyStr.replace. cbn. rewrite ?prefix_empty. cbn.
    change (PyStr.replace_from 0 "ws://" "http://" rest)
      with (PyStr.replace rest "ws://" "http://").
    rewrite (replace_absent _ _ _ H1). reflexivity. }
  rewrite E. unfold PyStr.replace. cbn. rewrite ?prefix_empty. cbn.
  change (PyStr.replace_from 0 "wss://" "https://" rest)
    with (PyStr.replace rest "wss://" "https://").
  rewrite (replace_absent _ _ _ H2). reflexivity.
Qed.

(** C5 at a URI that carries a second [ws://] in its query string:
    [str.replace] rewrites every occurrence, so the GET goes to a URL that
    differs from the target beyond its scheme. *)
Theorem http_url_rewrites_every_occurrence :
  http_url nested_uri = "http://h/?u=http://a"
  /\ req_url (http_request (new_probe nested_uri 5 [] false true))
     = "http://h/?u=http://a"
  /\ spec_http_url nested_uri = "http://h/?u=ws://a"
  /\ http_url nested_uri <> spec_http_url nested_uri.
Proof.
  repeat split; try reflexivity. discriminate.
Qed.

(** * Further properties of the session operations *)

(** X1. [ping_test] never raises and never changes the session; it answers
    [True] exactly when a connection is stored and the pong arrives. *)
Theorem ping_test_outcome (pong : outcome unit) (p : WebSocketProbe) :
  probe_of (ping_test pong p) = p
  /\ result_of (ping_test pong p) = Ret (has_handle p && returns pong).
Proof.
  unfold ping_test, has_handle. unfold_monad.
  destruct (connection p); [|split; reflexivity].
  destruct pong as [[]|[]]; split; reflexivity.
Qed.

(** X2. [send_message] never raises.  It never touches the connection handle
    or the connection counters; when it returns a response time, one
    message was sent and one received and the time was added to the total;
    when it returns [None], nothing was received or measured and at most
    one message was counted as sent. *)
Theorem send_message_accounting (m : string) (env : send_env)
    (p : WebSocketProbe) :
  let s := stats p in
  let s' := stats (probe_of (send_message m env p)) in
  connection (probe_of (send_message m env p)) = connection p
  /\ connection_attempts s' = connection_attempts s
  /\ successful_connections s' = successful_connections s
  /\ failed_connections s' = failed_connections s
  /\ exists r,
       result_of (send_message m env p) = Ret r
       /\ match r with
          | Some rt =>
              messages_sent s' = messages_sent s + 1
              /\ messages_received s' = messages_received s + 1
              /\ total_response_time s'
                 = Fplus (total_response_time s) (Fnum rt)
          | None =>
              messages_received s' = messages_received s
              /\ total_response_time s' = total_response_time s
              /\ min_response_time s' = min_response_time s
              /\ max_response_time s' = max_response_time s
              /\ (messages_sent s' = messages_sent s
                  \/ messages_sent s' = messages_sent s + 1)
          end.
Proof.
  intros s s'. subst s s'. unfold send_message. unfold_monad.
  destruct (connection p) eqn:Hc; cbn; rewrite ?Hc.
  - destruct (send_result env) as [[]|[]]; cbn;
      try (repeat split; try (exists None; repeat split; auto); fail);
      destruct (recv_result env) as [rt|[]]; cbn;
      repeat split; auto;
      first [ exists (Some rt); repeat split; reflexivity
            | exists None; repeat split; auto ].
  - repeat split; auto. exists None. repeat split; auto.
Qed.

(** X3. [connect] changes neither the message counters nor the response
    times.  When the library hands over a connection it is stored (in
    place of any earlier one) and [connect] returns [True]; otherwise
    [connect] returns [False] and what was stored stays stored. *)
Theorem connect_outcome (env : connect_env) (p : WebSocketProbe) :
  let s := stats p in
  let s' := stats (probe_of (connect env p)) in
  messages_sent s' = messages_sent s
  /\ messages_received s' = messages_received s
  /\ total_response_time s' = total_response_time s
  /\ min_response_time s' = min_response_time s
  /\ max_response_time s' = max_response_time s
  /\ match result_of (open_connection env p) with
     | Ret c =>
         result_of (connect env p) = Ret true
         /\ connection (probe_of (connect env p)) = Some c
     | Raise _ =>
         result_of (connect env p) = Ret false
         /\ connection (probe_of (connect env p)) = connection p
     end.
Proof.
  intros s s'. subst s s'.
  unfold connect. unfold_monad. cbn -[open_connection PyStr.startswith].
  set (q := set_stats incr_connection_attempts p).
  pose proof (open_connection_indep env p q) as E.
  unfold result_of in *.
  destruct (fst (fst (open_connection env p))) as [c|e];
  destruct (debug p), (PyStr.startswith (uri p) "wss://"),
           (skip_ssl_verify p); cbn -[open_connection]; fold q; rewrite E; cbn;
  try (repeat split; reflexivity);
  destruct e; unfold status_hints; unfold_monad; cbn;
  repeat match goal with
         | |- context [if ?b then _ else _] => destruct b; cbn
         end; repeat split; reflexivity.
Qed.

(** The outcome of [connect] follows that of the library call. *)
Lemma connect_follows_library (env : connect_env) (p : WebSocketProbe) :
  match result_of (open_connection env p) with
  | Ret c =>
      result_of (connect env p) = Ret true
      /\ connection (probe_of (connect env p)) = Some c
  | Raise _ =>
      result_of (connect env p) = Ret false
      /\ connection (probe_of (connect env p)) = connection p
  end.
Proof.
  unfold connect. unfold_monad. cbn -[open_connection PyStr.startswith].
  set (q := set_stats incr_connection_attempts p).
  pose proof (open_connection_indep env p q) as E.
  unfold result_of in *.
  destruct (fst (fst (open_connection env p))) as [c|e];
  destruct (debug p), (PyStr.startswith (uri p) "wss://"),
           (skip_ssl_verify p); cbn -[open_connection]; fold q; rewrite E; cbn;
  try (split; reflexivity);
  destruct e; unfold status_hints; unfold_monad; cbn;
  repeat match goal with
         | |- context [if ?b then _ else _] => destruct b; cbn
         end; split; reflexivity.
Qed.

(** X4. When the library rejects [additional_headers] and then
    [extra_headers] with type errors naming them, [connect] warns once that
    headers are dropped and its outcome is that of the call without
    headers. *)
Theorem connect_without_headers_fallback (env : connect_env)
    (p : WebSocketProbe) (m1 m2 : string) :
  with_additional_headers env = Raise (TypeError m1) ->
  PyStr.contains "additional_headers" m1 = true ->
  with_extra_headers env = Raise (TypeError m2) ->
  PyStr.contains "extra_headers" m2 = true ->
  open_connection env p = (without_headers env, p, [LogHeadersUnsupported])
  /\ result_of (connect env p) = Ret (returns (without_headers env)).
Proof.
  intros H1 C1 H2 C2.
  assert (E : forall q, open_connection env q
                        = (without_headers env, q, [LogHeadersUnsupported])).
  { intros q. unfold open_connection. unfold_monad.
    rewrite H1, C1, H2, C2. destruct (without_headers env); reflexivity. }
  split; [apply E|].
  pose proof (connect_follows_library env p) as H.
  rewrite E in H. unfold result_of in *. cbn [fst] in H.
  destruct (without_headers env); cbn; tauto.
Qed.

Lemma connect_without_headers_fallback_witness :
  result_of (connect headerless_library fresh_session) = Ret true.
Proof.
  exact (proj2 (connect_without_headers_fallback headerless_library
                  fresh_session _ _ eq_refl eq_refl eq_refl eq_refl)).
Defined.

(** X5. A type error that does not name [additional_headers] is not retried:
    whatever the other ways of calling the library would give, [connect]
    fails, counting one failed connection. *)
Theorem connect_type_error_not_retried (env : connect_env)
    (p : WebSocketProbe) (m1 : string) :
  with_additional_headers env = Raise (TypeError m1) ->
  PyStr.contains "additional_headers" m1 = false ->
  result_of (connect env p) = Ret false
  /\ probe_of (connect env p) = refused_probe p.
Proof.
  intros H1 C1.
  assert (E : result_of (open_connection env p) = Raise (TypeError m1)).
  { unfold open_connection. unfold_monad. rewrite H1, C1. reflexivity. }
  pose proof (connect_follows_library env p) as H.
  rewrite E in H. destruct H as [Hr _].
  destruct (connect_cases env p) as [(c & Hr' & _)|[_ Hp]].
  - rewrite Hr in Hr'. discriminate Hr'.
  - split; assumption.
Qed.

Lemma connect_type_error_not_retried_witness :
  result_of (connect mistyped_library fresh_session) = Ret false.
Proof.
  exact (proj1 (connect_type_error_not_retried mistyped_library fresh_session
                  _ eq_refl eq_refl)).
Defined.

(** X6. The status read off an invalid-status exception is never code 0; a
    non-zero [status_code] attribute wins over the response; the status is
    unknown exactly when neither the attribute nor the response gives a
    non-zero code. *)
Theorem extract_status_cases (sc : option Z) (resp : option Response) :
  extract_status sc resp <> Code 0
  /\ match sc with
     | Some c => if c =? 0 then True else extract_status sc resp = Code c
     | None => True
     end
  /\ (extract_status sc resp = Unknown <->
      (sc = None \/ sc = Some 0)
      /\ (resp = None \/ resp = Some (mkResponse 0))).
Proof.
  unfold extract_status.
  destruct sc as [c|]; [destruct (Z.eqb_spec c 0) as [->|Hc]|];
    (destruct resp as [[r]|]; cbn; [destruct (Z.eqb_spec r 0) as [->|Hr]|]);
    repeat split; try congruence; try tauto; intros; auto;
    repeat match goal with
           | H : _ /\ _ |- _ => destruct H
           | H : _ \/ _ |- _ => destruct H
           end; try congruence.
Qed.

(** * Further properties of the statistics *)

Lemma latency_sound_step (s s' : Stats) :
  stats_step s s' -> latency_sound s -> latency_sound s'.
Proof.
  unfold latency_sound. intros [] [H0 H]; cbn; try (split; assumption).
  destruct (min_response_time s) as [a|]; cbn.
  - destruct H as (Hr & Ha). split; [lia|]. split; lia.
  - destruct H as (-> & ->). split; [lia|]. split; lia.
Qed.

Lemma counters_nonneg_step (s s' : Stats) :
  stats_step s s' ->
  0 <= successful_connections s /\ 0 <= failed_connections s
  /\ 0 <= messages_sent s /\ 0 <= messages_received s ->
  0 <= successful_connections s' /\ 0 <= failed_connections s'
  /\ 0 <= messages_sent s' /\ 0 <= messages_received s'.
Proof.
  intros [] H; cbn; lia.
Qed.

(** X8. On a session built by [__init__], after any sequence of operations:
    no counter is negative, the maximum is not negative, and the extrema
    agree with the number of replies: the minimum is infinite (and the
    maximum 0) exactly when nothing was received, and otherwise the minimum
    is finite and at most the maximum. *)
Theorem session_statistics_sound
    (u : string) (t : Z) (h : list (string * string)) (skip dbg : bool)
    (ops : list op) :
  let s := stats (run_ops ops (new_probe u t h skip dbg)) in
  0 <= successful_connections s
  /\ 0 <= failed_connections s
  /\ 0 <= messages_sent s
  /\ 0 <= messages_received s
  /\ latency_sound s.
Proof.
  intros s.
  assert (H1 : 0 <= successful_connections s /\ 0 <= failed_connections s
               /\ 0 <= messages_sent s /\ 0 <= messages_received s).
  { apply (run_ops_invariant _ counters_nonneg_step). cbn. lia. }
  assert (H2 : latency_sound s).
  { apply (run_ops_invariant _ latency_sound_step).
    unfold latency_sound. cbn. repeat split; lia. }
  tauto.
Qed.

Lemma rmin2_swap (t a b : rtime) :
  rmin2 (rmin2 t a) b = rmin2 (rmin2 t b) a.
Proof.
  destruct t, a, b; cbn; try reflexivity; f_equal; lia.
Qed.

Lemma agree_except_total_trans (a b c : Stats) :
  agree_except_total a b -> agree_except_total b c -> agree_except_total a c.
Proof.
  unfold agree_except_total. intros H1 H2.
  repeat split; etransitivity; first [apply H1 | apply H2].
Qed.

Lemma fold_result_agree (a b : Stats) (x : outcome Stats) :
  agree_except_total a b ->
  agree_except_total (fold_result a x) (fold_result b x).
Proof.
  unfold agree_except_total.
  intros (H1 & H2 & H3 & H4 & H5 & H6 & H7).
  destruct x as [s|e]; cbn [fold_result]; [|tauto].
  rewrite !merge_fields. cbn. rewrite H1, H2, H3, H4, H5, H6, H7.
  repeat split.
Qed.

Lemma fold_result_swap (t : Stats) (x y : outcome Stats) :
  agree_except_total (fold_result (fold_result t x) y)
                     (fold_result (fold_result t y) x).
Proof.
  unfold agree_except_total.
  destruct x, y; cbn [fold_result]; rewrite ?merge_fields; cbn;
    repeat split; try lia; apply rmin2_swap.
Qed.

Lemma fold_left_agree (l : list (outcome Stats)) (a b : Stats) :
  agree_except_total a b ->
  agree_except_total (fold_left fold_result l a) (fold_left fold_result l b).
Proof.
  revert a b. induction l as [|x l IH]; intros a b H; cbn [fold_left];
    [exact H|].
  apply IH. apply fold_result_agree. exact H.
Qed.

Lemma fold_result_permutation (l l' : list (outcome Stats)) :
  Permutation l l' ->
  forall a b,
    agree_except_total a b ->
    agree_except_total (fold_left fold_result l a) (fold_left fold_result l' b).
Proof.
  induction 1 as [|x l l' _ IH|x y l|l l' l'' _ IH1 _ IH2]; intros a b H;
    cbn [fold_left].
  - exact H.
  - apply IH. apply fold_result_agree. exact H.
  - apply fold_left_agree.
    eapply agree_except_total_trans; [apply fold_result_swap|].
    apply fold_result_agree. apply fold_result_agree. exact H.
  - eapply agree_except_total_trans; [apply (IH1 a a)|apply (IH2 a b H)].
    unfold agree_except_total. repeat split.
Qed.

(** X9. The counters and the extrema of the total do not depend on the
    order of the entries of [results] (statistics or exceptions): two
    orders give totals that agree on every entry but the float sum
    [total_response_time]. *)
Theorem aggregate_order_irrelevant (results results' : list (outcome Stats)) :
  Permutation results results' ->
  agree_except_total (aggregate results) (aggregate results').
Proof.
  intros H. rewrite !aggregate_fold. apply fold_result_permutation; [exact H|].
  unfold agree_except_total. repeat split.
Qed.

Lemma aggregate_order_irrelevant_witness :
  agree_except_total
    (aggregate [Ret one_echo; Raise TimeoutError; Ret one_refusal])
    (aggregate [Raise TimeoutError; Ret one_echo; Ret one_refusal]).
Proof.
  apply aggregate_order_irrelevant. apply perm_swap.
Defined.

Lemma send_message_shapes (m : string) (env : send_env) (p : WebSocketProbe) :
  exists r q t,
    send_message m env p = (Ret r, q, t)
    /\ (stats q = stats p
        \/ stats q = incr_messages_sent (stats p)
        \/ exists rt, stats q = record_response rt (incr_messages_sent (stats p))).
Proof.
  unfold send_message. unfold_monad.
  destruct (connection p);
    [|do 3 eexists; split; [reflexivity|]; left; reflexivity].
  destruct (send_result env) as [[]|[]]; cbn;
    try (do 3 eexists; split; [reflexivity|]; left; reflexivity);
  destruct (recv_result env) as [rt|[]]; cbn;
    do 3 eexists; (split; [reflexivity|]); cbn;
    first [ right; left; reflexivity | right; right; eexists; reflexivity ].
Qed.

(** The statistics a stress trial returns. *)
Lemma single_test_shapes (u m : string) (h : list (string * string))
    (skip : bool) (e : trial_env) (s : Stats) :
  single_test u m h skip e = Ret s ->
  let refused := incr_failed_connections (incr_connection_attempts init_stats) in
  let connected :=
    incr_successful_connections (incr_connection_attempts init_stats) in
  s = refused \/ s = connected \/ s = incr_messages_sent connected
  \/ exists rt, s = record_response rt (incr_messages_sent connected).
Proof.
  unfold single_test.
  set (probe := new_probe u 5 h skip false).
  unfold try_finally, bind, result_of.
  pose proof (connect_cases (tr_connect e) probe) as Hc.
  unfold result_of, probe_of in Hc.
  destruct (connect (tr_connect e) probe) as [[r p1] t1]. cbn [fst snd] in Hc.
  destruct Hc as [(c & -> & ->)|[-> ->]]; cbn [when].
  - destruct (send_message_shapes m (tr_send e) (connected_probe c probe))
      as (r & q & t & -> & Hq).
    unfold_monad. cbn [fst snd].
    destruct (close (tr_close e) q) as [[[[]|x] q'] t']; cbn; intros [= <-];
      cbn in Hq; destruct Hq as [->|[->|[rt ->]]]; eauto.
  - unfold_monad. cbn [fst snd].
    destruct (close (tr_close e) (refused_probe probe)) as [[[[]|x] q'] t'];
      cbn; intros [= <-]; auto.
Qed.

Lemma single_test_sound (u m : string) (h : list (string * string))
    (skip : bool) (e : trial_env) (s : Stats) :
  single_test u m h skip e = Ret s -> trial_sound s.
Proof.
  intros H. apply single_test_shapes in H. cbn in H.
  unfold trial_sound, balanced, latency_sound.
  destruct H as [->|[->|[->|[rt ->]]]]; cbn -[Z.mul Z.max];
    repeat split; lia.
Qed.

Lemma merge_sound (t r : Stats) :
  trial_sound t -> trial_sound r -> trial_sound (merge t r).
Proof.
  unfold trial_sound, balanced, latency_sound.
  intros (T1 & T2 & T3 & T4 & T5 & T6 & T7) (R1 & R2 & R3 & R4 & R5 & R6 & R7).
  rewrite merge_fields. cbn.
  repeat (split; [lia|]).
  destruct (min_response_time t) as [a|], (min_response_time r) as [b|]; cbn;
    split; lia.
Qed.

Lemma fold_result_sound (results : list (outcome Stats)) (t : Stats) :
  trial_sound t ->
  (forall s, In (Ret s) results -> trial_sound s) ->
  trial_sound (fold_left fold_result results t).
Proof.
  revert t. induction results as [|r results IH]; intros t Ht Hr;
    cbn [fold_left]; [exact Ht|].
  apply IH.
  - destruct r as [s|e]; cbn [fold_result]; [|exact Ht].
    apply merge_sound; [exact Ht|]. apply Hr. left. reflexivity.
  - intros s Hs. apply Hr. right. exact Hs.
Qed.

Lemma stress_test_returns (u : string) (count concurrency : Z) (m : string)
    (h : list (string * string)) (skip : bool) (envs : nat -> trial_env) :
  0 < concurrency ->
  stress_test u count concurrency m h skip envs
  = Some (Ret (aggregate (gather u m h skip count envs))).
Proof.
  intros H. unfold stress_test.
  destruct (Z.ltb_spec concurrency 0); [lia|].
  destruct (Z.eqb_spec concurrency 0); [lia|]. reflexivity.
Qed.

(** X10. With a positive [concurrency] the stress test reports a total in
    which successes plus failures equal the attempts, which are at most
    [count]; no more messages are sent than connections succeeded, no more
    received than sent; and the extrema agree with the number of replies
    (minimum infinite exactly when no trial received a reply, otherwise
    finite and at most the maximum). *)
Theorem stress_test_total_sound
    (u : string) (count concurrency : Z) (m : string)
    (h : list (string * string)) (skip : bool) (envs : nat -> trial_env) :
  0 < concurrency ->
  exists total,
    stress_test u count concurrency m h skip envs = Some (Ret total)
    /\ trial_sound total
    /\ connection_attempts total <= Z.max 0 count.
Proof.
  intros Hc. rewrite (stress_test_returns _ _ _ _ _ _ _ Hc).
  eexists. split; [reflexivity|]. split.
  - rewrite aggregate_fold.
    apply fold_result_sound.
    + unfold trial_sound, balanced, latency_sound. cbn. repeat split; lia.
    + intros s Hs. unfold gather in Hs. apply in_map_iff in Hs.
      destruct Hs as (i & Hi & _). eapply single_test_sound. exact Hi.
  - rewrite aggregate_fold, fold_result_attempts.
    unfold gather. rewrite gather_attempts. cbn [init_stats connection_attempts].
    pose proof (filter_length_le returned
                  (map (fun i => single_test u m h skip (envs i))
                       (seq 0 (Z.to_nat count)))) as Hle.
    rewrite List.length_map, List.length_seq in Hle. lia.
Qed.

Lemma stress_test_total_sound_witness :
  exists total,
    stress_test "ws://h/" 3 2 "ping" [] false (fun _ => sound_trial)
    = Some (Ret total)
    /\ trial_sound total
    /\ connection_attempts total <= Z.max 0 3.
Proof.
  exact (stress_test_total_sound "ws://h/" 3 2 "ping" [] false
           (fun _ => sound_trial) eq_refl).
Defined.

(** X11. With a positive [concurrency], a one-trial stress test whose trial
    returns its statistics reports those: every counter and both extrema
    are the trial's, and the total response time is the float sum of the
    initial 0 and the trial's. *)
Theorem stress_test_single_trial
    (u : string) (concurrency : Z) (m : string) (h : list (string * string))
    (skip : bool) (envs : nat -> trial_env) (s : Stats) :
  0 < concurrency ->
  single_test u m h skip (envs 0%nat) = Ret s ->
  exists total,
    stress_test u 1 concurrency m h skip envs = Some (Ret total)
    /\ agree_except_total total s
    /\ total_response_time total = Fplus Fzero (total_response_time s).
Proof.
  intros Hc H. pose proof (single_test_sound _ _ _ _ _ _ H) as Hs.
  rewrite (stress_test_returns _ _ _ _ _ _ _ Hc).
  eexists. split; [reflexivity|].
  unfold gather. change (Z.to_nat 1) with 1%nat. cbn [seq map].
  rewrite H. unfold aggregate. cbn [fold_left]. rewrite merge_fields.
  destruct Hs as (_ & _ & _ & _ & _ & Hmax & _).
  unfold agree_except_total. cbn.
  rewrite Z.max_r by lia.
  destruct (min_response_time s); repeat split.
Qed.

Lemma stress_test_single_trial_witness :
  exists total,
    stress_test "ws://h/" 1 3 "ping" [] false (fun _ => sound_trial)
    = Some (Ret total)
    /\ agree_except_total total one_echo
    /\ total_response_time total = Fplus Fzero (total_response_time one_echo).
Proof.
  exact (stress_test_single_trial "ws://h/" 3 "ping" [] false
           (fun _ => sound_trial) one_echo eq_refl eq_refl).
Defined.

(** * Further properties of the continuous probe *)

Lemma returns_unit (r : outcome unit) : returns r = true -> r = Ret tt.
Proof. destruct r as [[]|e]; [reflexivity | discriminate]. Qed.

(** A calm iteration is followed by the next one. *)
Lemma probe_loop_calm (interval : Z) (m : string) (e : cycle_env)
    (envs : list cycle_env) (p : WebSocketProbe) :
  calm e = true ->
  exists p1 t1,
    probe_loop interval m (mkRunner true) (e :: envs) p
    = match probe_loop interval m (mkRunner true) envs p1 with
      | Some (r, p3, t3) => Some (r, p3, t1 ++ t3)
      | None => None
      end
    /\ connection_attempts (stats p1) = connection_attempts (stats p) + 1
    /\ count_events is_connecting t1 = 1%nat
    /\ count_events is_print_stats t1 = 0%nat.
Proof.
  unfold calm. intros H.
  apply andb_prop in H. destruct H as [H Hsl]. apply andb_prop in H.
  destruct H as [H Hc]. apply andb_prop in H.
  destruct H as [Hi Hs]. apply negb_true_iff in Hi, Hs.
  apply returns_unit in Hc, Hsl.
  cbn [probe_loop running]. rewrite Hi, Hs, Hsl. cbn [deliver when running].
  pose proof (probe_cycle_facts m e p) as (Ha & C1 & C2 & Hr).
  specialize (Hr Hc). unfold result_of, probe_of, trace_of in *.
  destruct (probe_cycle m e p) as [[r p1] t1]. cbn [fst snd] in *. subst r.
  unfold bind, emit, await. cbv beta iota.
  exists p1, (t1 ++ [PrintWaiting interval; Sleep interval]).
  split.
  - destruct (probe_loop interval m {| running := true |} envs p1)
      as [[[r p3] t3]|]; [|reflexivity].
    rewrite <- (app_assoc t1 [PrintWaiting interval; Sleep interval] t3).
    reflexivity.
  - rewrite !count_events_app, C1, C2. cbn. repeat split; lia.
Qed.

Lemma probe_loop_never_ends (interval : Z) (m : string)
    (envs : list cycle_env) (p : WebSocketProbe) :
  forallb calm envs = true ->
  probe_loop interval m (mkRunner true) envs p = None.
Proof.
  revert p. induction envs as [|e envs IH]; intros p H; [reflexivity|].
  cbn [forallb] in H. apply andb_prop in H. destruct H as [He Hs].
  destruct (probe_loop_calm interval m e envs p He) as (p1 & t1 & -> & _).
  rewrite (IH p1 Hs). reflexivity.
Qed.

(** X12. With the flag set and no interrupt delivered, the loop does not end
    by itself: whatever the connects, pings and sends of the iterations
    give (failures included), as long as every [close] and every sleep
    between two cycles returns, every finite number of iterations leaves
    the driver still polling. *)
Theorem continuous_probe_keeps_polling
    (u : string) (interval : Z) (m : string) (h : list (string * string))
    (skip : bool) (envs : list cycle_env) (final_close : outcome unit) :
  forallb calm envs = true ->
  continuous_probe (mkRunner true) u interval m h skip envs final_close = None.
Proof.
  intros H. unfold continuous_probe.
  rewrite (probe_loop_never_ends interval m envs _ H). reflexivity.
Qed.

Lemma continuous_probe_keeps_polling_witness :
  continuous_probe (mkRunner true) "ws://h/" 0 "ping" [] false
    [never_stop; mkCycleEnv refusing (Ret tt) (echo 50) (Ret tt) (Ret tt) false false]
    (Ret tt)
  = None.
Proof.
  exact (continuous_probe_keeps_polling "ws://h/" 0 "ping" [] false
           [never_stop; mkCycleEnv refusing (Ret tt) (echo 50) (Ret tt) (Ret tt) false false]
           (Ret tt) eq_refl).
Defined.

Lemma probe_loop_calm_prefix (interval : Z) (m : string)
    (pre tl : list cycle_env) (p : WebSocketProbe) :
  forallb calm pre = true ->
  exists p1 t1,
    probe_loop interval m (mkRunner true) (pre ++ tl) p
    = match probe_loop interval m (mkRunner true) tl p1 with
      | Some (r, p3, t3) => Some (r, p3, t1 ++ t3)
      | None => None
      end
    /\ connection_attempts (stats p1)
       = connection_attempts (stats p) + Z.of_nat (List.length pre)
    /\ count_events is_connecting t1 = List.length pre
    /\ count_events is_print_stats t1 = 0%nat.
Proof.
  revert p. induction pre as [|e pre IH]; intros p H.
  - exists p, []. cbn [app List.length]. split.
    + destruct (probe_loop interval m {| running := true |} tl p)
        as [[[r p3] t3]|]; reflexivity.
    + repeat split; cbn; lia.
  - cbn [forallb] in H. apply andb_prop in H. destruct H as [He Hs].
    cbn [app].
    destruct (probe_loop_calm interval m e (pre ++ tl) p He)
      as (p1 & t1 & -> & Ha & C1 & C2).
    destruct (IH p1 Hs) as (p2 & t2 & -> & Ha2 & D1 & D2).
    exists p2, (t1 ++ t2). split.
    + destruct (probe_loop interval m {| running := true |} tl p2)
        as [[[r p3] t3]|]; [|reflexivity].
      rewrite <- app_assoc. reflexivity.
    + rewrite !count_events_app, C1, C2, D1, D2, Ha2, Ha. cbn [List.length].
      repeat split; lia.
Qed.

(** X13. The number of probe cycles is the number of iterations up to the one
    during which the interrupt is delivered: after [n] iterations without
    interrupt whose [close] and sleep return, and one interrupted iteration
    (whatever its [close] and its sleep do), the driver terminates with
    [n + 1] connection attempts, whatever iterations could follow, and
    prints the statistics exactly once when the final [close] returns. *)
Theorem continuous_probe_cycles_until_interrupt
    (u : string) (interval : Z) (m : string) (h : list (string * string))
    (skip : bool) (pre : list cycle_env) (e : cycle_env)
    (rest : list cycle_env) (final_close : outcome unit) :
  forallb calm pre = true ->
  (interrupt_in_cycle e || interrupt_in_sleep e)%bool = true ->
  exists r p tr,
    continuous_probe (mkRunner true) u interval m h skip
      (pre ++ e :: rest) final_close
    = Some (r, p, tr)
    /\ connection_attempts (stats p) = Z.of_nat (List.length pre) + 1
    /\ count_events is_connecting tr = S (List.length pre)
    /\ (final_close = Ret tt -> count_events is_print_stats tr = 1%nat).
Proof.
  intros Hpre Hint. unfold continuous_probe.
  set (probe := new_probe u 5 h skip false).
  destruct (probe_loop_calm_prefix interval m pre (e :: rest) probe Hpre)
    as (p1 & t1 & -> & Ha & C1 & C2).
  rewrite (probe_loop_first_cycle interval m e rest p1 Hint).
  destruct (cycle_then_pause interval m e p1) as (rb & tb & -> & [B1 B2] & _).
  pose proof (probe_cycle_facts m e p1) as (Ha' & D1 & D2 & _).
  unfold result_of, probe_of, trace_of in *.
  destruct (probe_cycle m e p1) as [[rc p2] t2]. cbn [fst snd] in *.
  unfold try_finally, bind, print_stats, get, emit.
  pose proof (close_stats final_close p2) as Hs.
  pose proof (close_quiet final_close p2) as [E1 E2].
  pose proof (close_returns p2) as Hcr.
  unfold result_of, probe_of, trace_of in *.
  destruct final_close as [[]|x];
    destruct (close _ p2) as [[[[]|y] p3] t3]; cbn [fst snd] in *;
    do 3 eexists; (split; [reflexivity|]);
    rewrite !count_events_app, ?Hs, ?Ha', ?Ha, ?B1, ?B2, ?C1, ?C2, ?D1, ?D2,
            ?E1, ?E2;
    cbn; repeat split; try lia; try discriminate.
Qed.

Lemma continuous_probe_cycles_until_interrupt_witness :
  exists r p tr,
    continuous_probe (mkRunner true) "ws://h/" 5 "ping" [] false
      ([never_stop; never_stop] ++ stop_after_first :: [never_stop]) (Ret tt)
    = Some (r, p, tr)
    /\ connection_attempts (stats p) = Z.of_nat 2 + 1
    /\ count_events is_connecting tr = 3%nat
    /\ ((Ret tt : outcome unit) = Ret tt ->
        count_events is_print_stats tr = 1%nat).
Proof.
  exact (continuous_probe_cycles_until_interrupt "ws://h/" 5 "ping" [] false
           [never_stop; never_stop] stop_after_first [never_stop] (Ret tt)
           eq_refl eq_refl).
Defined.

Lemma probe_cycle_close_raises (m : string) (e : cycle_env)
    (p : WebSocketProbe) (x : exn) :
  connect_succeeds (cy_connect e) p = true ->
  cy_close e = Raise x ->
  result_of (probe_cycle m e p) = Raise x
  /\ has_handle (probe_of (probe_cycle m e p)) = true.
Proof.
  unfold connect_succeeds, probe_cycle, bind. intros Hc Hx.
  pose proof (connect_cases (cy_connect e) p) as H.
  unfold result_of, probe_of in *.
  destruct (connect (cy_connect e) p) as [[rc p1] t1]. cbn [fst snd] in *.
  destruct H as [(c & -> & ->)|[-> ->]]; [|discriminate Hc].
  pose proof (ping_test_probe (cy_ping e) (connected_probe c p)) as [Hp [b Hb]].
  unfold result_of, probe_of in *.
  destruct (ping_test (cy_ping e) (connected_probe c p)) as [[rp p2] t2].
  cbn [fst snd] in *. subst rp p2.
  pose proof (send_message_handle m (cy_send e) (connected_probe c p)) as Hh.
  destruct (send_message_returns m (cy_send e) (connected_probe c p))
    as (r & q & t & Es & _).
  unfold probe_of in Hh. rewrite Es in *. cbn [fst snd] in *.
  cbn in Hh.
  rewrite (close_connected (cy_close e) q c Hh), Hx. cbn.
  unfold has_handle. rewrite Hh. split; reflexivity.
Qed.

(** X14. When the [close] that ends a cycle raises, the polling is abandoned
    with that exception, interrupt or not, after that one cycle; the
    statistics are still printed if the final [close] returns, and are
    never printed if it raises as well. *)
Theorem continuous_probe_close_failure
    (u : string) (interval : Z) (m : string) (h : list (string * string))
    (skip : bool) (e : cycle_env) (rest : list cycle_env) (x : exn)
    (final_close : outcome unit) :
  connect_succeeds (cy_connect e) (new_probe u 5 h skip false) = true ->
  cy_close e = Raise x ->
  exists r p tr,
    continuous_probe (mkRunner true) u interval m h skip (e :: rest) final_close
    = Some (r, p, tr)
    /\ connection_attempts (stats p) = 1
    /\ match final_close with
       | Ret _ => r = Raise x /\ count_events is_print_stats tr = 1%nat
       | Raise y => r = Raise y /\ count_events is_print_stats tr = 0%nat
       end.
Proof.
  intros Hc Hx. unfold continuous_probe.
  set (probe := new_probe u 5 h skip false) in *.
  cbn [probe_loop running].
  pose proof (probe_cycle_close_raises m e probe x Hc Hx) as [Hr Hh].
  pose proof (probe_cycle_facts m e probe) as (Ha & _ & D2 & _).
  unfold result_of, probe_of, trace_of in *.
  destruct (probe_cycle m e probe) as [[rc p1] t1]. cbn [fst snd] in *.
  subst rc. unfold has_handle in Hh.
  destruct (connection p1) as [c|] eqn:Hcon; [|discriminate Hh].
  unfold try_finally, bind, print_stats, get, emit.
  rewrite (close_connected final_close p1 c Hcon).
  destruct final_close as [[]|y]; cbn; do 3 eexists;
    (split; [reflexivity|]); rewrite ?count_events_app, ?D2; cbn;
    repeat split; auto.
Qed.

Lemma continuous_probe_close_failure_witness :
  exists r p tr,
    continuous_probe (mkRunner true) "ws://h/" 5 "ping" [] false
      (broken_close :: [never_stop]) failing_close
    = Some (r, p, tr)
    /\ connection_attempts (stats p) = 1
    /\ r = Raise (OtherException "close failed")
    /\ count_events is_print_stats tr = 0%nat.
Proof.
  exact (continuous_probe_close_failure "ws://h/" 5 "ping" [] false
           broken_close [never_stop] (OtherException "close failed")
           failing_close eq_refl eq_refl).
Defined.

(** * Further properties of the HTTP fallback *)

Lemma substring_prefix_length (n : nat) (s : string) :
  String.prefix (String.substring 0 n s) s = true
  /\ String.length (String.substring 0 n s) = Nat.min n (String.length s).
Proof.
  revert s. induction n as [|n IH]; intros s.
  - destruct s; split; reflexivity.
  - destruct s as [|c s]; [split; reflexivity|].
    cbn. destruct (IH s) as [Hp Hl]. rewrite Hl.
    destruct (ascii_dec c c) as [_|Hn]; [|contradiction]. split; auto.
Qed.

(** X15. [http_probe] never raises and never changes the session.  A failed
    request becomes the error dictionary; an answered one is reported with
    its status, headers and content type, and with a content that is a
    prefix of the body of at most 500 characters (the whole body when it is
    not longer). *)
Theorem http_probe_snapshot (server : HttpRequest -> outcome HttpResponse)
    (p : WebSocketProbe) :
  probe_of (http_probe server p) = p
  /\ match server (http_request p) with
     | Raise e => result_of (http_probe server p) = Ret (HttpError e)
     | Ret r =>
         exists content,
           result_of (http_probe server p)
           = Ret (HttpInfo (resp_status r) (resp_headers r)
                           (resp_content_type r) (resp_url r) content)
           /\ (String.length content <= 500)%nat
           /\ match resp_text r with
              | Ret s =>
                  String.prefix content s = true
                  /\ String.length content = Nat.min 500 (String.length s)
              | Raise _ => True
              end
     end.
Proof.
  unfold http_probe. unfold_monad.
  destruct (server (http_request p)) as [r|e]; [|split; reflexivity].
  split; [reflexivity|]. cbn [fst].
  destruct (resp_text r) as [s|e].
  - unfold PyStr.take.
    destruct (substring_prefix_length 500 s) as [Hp Hl].
    destruct (Nat.ltb_spec 500 (String.length s)) as [Hlt|Hge].
    + eexists. split; [reflexivity|]. rewrite Hl. repeat split; auto; lia.
    + assert (Hs : String.prefix s s = true).
      { clear. induction s as [|c s IH]; [reflexivity|]. cbn.
        destruct (ascii_dec c c); [exact IH | contradiction]. }
      eexists. split; [reflexivity|]. repeat split; auto; lia.
  - eexists. split; [reflexivity|]. cbn. split; [lia | exact I].
Qed.

(** X16. For a target [ws://...] or [wss://...] that contains no further
    [ws://] or [wss://], the GET goes to the same address under [http://]
    or [https://], with the session's headers and timeout; a TLS context is
    built only for [https://], and it verifies certificates unless
    [skip_ssl_verify] is set. *)
Theorem http_request_of_plain_uri (rest : string) (t : Z)
    (h : list (string * string)) (skip dbg : bool) :
  PyStr.contains "ws://" rest = false ->
  PyStr.contains "wss://" rest = false ->
  http_request (new_probe ("ws://" ++ rest) t h skip dbg)
  = mkHttpRequest ("http://" ++ rest) h None t
  /\ http_request (new_probe ("wss://" ++ rest) t h skip dbg)
     = mkHttpRequest ("https://" ++ rest) h (Some (negb skip)) t.
Proof.
  intros H1 H2. unfold http_request. cbn [uri headers timeout skip_ssl_verify new_probe].
  rewrite (http_url_plain_ws rest H1 H2), (http_url_plain_wss rest H1 H2).
  unfold PyStr.startswith. cbn. rewrite prefix_empty. split; reflexivity.
Qed.

Lemma http_request_of_plain_uri_witness :
  http_request (new_probe ("wss://" ++ "invalid.example/ws") 5 [] true false)
  = mkHttpRequest ("https://" ++ "invalid.example/ws") [] (Some (negb true)) 5.
Proof.
  exact (proj2 (http_request_of_plain_uri "invalid.example/ws" 5 [] true false
                  eq_refl eq_refl)).
Defined.

(** * Properties of the basic probe *)

Lemma count_console_app (f : console -> bool) (a b : list console) :
  count_console f (a ++ b) = (count_console f a + count_console f b)%nat.
Proof.
  unfold count_console. rewrite filter_app, List.length_app. reflexivity.
Qed.

Lemma count_stats_printout_logged (t : list event) :
  count_console is_stats_printout (map Logged t)
  = count_events is_print_stats t.
Proof.
  unfold count_console, count_events.
  induction t as [|e t IH]; [reflexivity|].
  cbn. destruct (is_print_stats e); cbn; rewrite IH; reflexivity.
Qed.

Lemma count_stats_printout_printed (l : list line) :
  count_console is_stats_printout (map Printed l) = 0%nat.
Proof.
  unfold count_console. induction l as [|x l IH]; [reflexivity|exact IH].
Qed.

Lemma filter_printed_logged (t : list event) :
  filter is_printed (map Logged t) = [].
Proof. induction t as [|e t IH]; [reflexivity|exact IH]. Qed.

Lemma filter_printed_printed (l : list line) :
  filter is_printed (map Printed l) = map Printed l.
Proof.
  induction l as [|x l IH]; [reflexivity|]. cbn. rewrite IH. reflexivity.
Qed.

Lemma http_probe_silent (server : HttpRequest -> outcome HttpResponse)
    (p : WebSocketProbe) :
  http_probe server p = (Ret (http_snapshot server p), p, []).
Proof.
  unfold http_snapshot, http_probe. unfold_monad.
  destruct (server (http_request p)); reflexivity.
Qed.

(** The snapshot depends on the configuration of the session only. *)
Lemma http_snapshot_stats (server : HttpRequest -> outcome HttpResponse)
    (f : Stats -> Stats) (p : WebSocketProbe) :
  http_snapshot server (set_stats f p) = http_snapshot server p.
Proof.
  unfold http_snapshot, http_probe. unfold_monad.
  change (http_request (set_stats f p)) with (http_request p).
  destruct (server (http_request p)); reflexivity.
Qed.

(** What the body of [basic_probe] (before [finally]) leaves behind. *)
Lemma basic_probe_body (str_exn : exn -> string) (message : string)
    (dbg : bool) (env : basic_env) (p : WebSocketProbe) :
  exists q t,
    (connected <- lift (connect (bs_connect env)) ;;
     if connected then
       lift (ping_test (bs_ping env)) ;;;
       lift (send_message message (bs_send env)) ;;;
       io_ret tt
     else if dbg then
       say DiagBanner ;;;
       http_result <- lift (http_probe (bs_server env)) ;;
       (fun p => (Ret tt, p, map Printed (diagnose str_exn http_result))) ;;;
       say DiagRule
     else io_ret tt)%io p
    = (Ret tt, q, t)
    /\ connection_attempts (stats q) = connection_attempts (stats p) + 1
    /\ successful_connections (stats q) + failed_connections (stats q)
       = successful_connections (stats p) + failed_connections (stats p) + 1
    /\ messages_sent (stats p) <= messages_sent (stats q)
       <= messages_sent (stats p) + 1
    /\ count_console is_stats_printout t = 0%nat
    /\ filter is_printed t
       = if (connect_succeeds (bs_connect env) p || negb dbg)%bool then []
         else map Printed
                (DiagBanner
                 :: diagnose str_exn (http_snapshot (bs_server env) p)
                 ++ [DiagRule]).
Proof.
  unfold io_bind, lift, io_ret, say, connect_succeeds.
  pose proof (connect_cases (bs_connect env) p) as Hc.
  pose proof (connect_trace (bs_connect env) p) as [_ T2].
  unfold result_of, probe_of, trace_of in *.
  destruct (connect (bs_connect env) p) as [[rc p1] t1]. cbn [fst snd] in *.
  destruct Hc as [(c & -> & ->)|[-> ->]].
  - pose proof (ping_test_probe (bs_ping env) (connected_probe c p))
      as [Hp [b Hb]].
    pose proof (ping_test_quiet (bs_ping env) (connected_probe c p)) as [_ P2].
    unfold result_of, probe_of, trace_of in *.
    destruct (ping_test (bs_ping env) (connected_probe c p)) as [[rp p2] t2].
    cbn [fst snd] in *. subst rp p2.
    pose proof (send_message_quiet message (bs_send env) (connected_probe c p))
      as [_ S2].
    destruct (send_message_shapes message (bs_send env) (connected_probe c p))
      as (r & q & t & Es & Hq).
    unfold trace_of in *. rewrite Es in *. cbn [fst snd] in *.
    exists q, (map Logged t1 ++ map Logged t2 ++ map Logged t ++ []).
    split; [reflexivity|].
    rewrite !count_console_app, !filter_app, !count_stats_printout_logged,
            !filter_printed_logged, T2, P2, S2.
    cbn in Hq. cbn [orb].
    destruct Hq as [->|[->|[rt ->]]]; cbn; repeat split; lia.
  - destruct dbg; cbn [orb negb].
    + rewrite (http_probe_silent (bs_server env) (refused_probe p)).
      cbn [map app].
      unfold refused_probe. rewrite !http_snapshot_stats.
      fold (refused_probe p).
      eexists _, _. split; [reflexivity|].
      rewrite !count_console_app, !filter_app, !count_stats_printout_logged,
              !filter_printed_logged, T2.
      cbn [app].
      change (Printed DiagBanner
              :: map Printed (diagnose str_exn (http_snapshot (bs_server env) p))
              ++ [Printed DiagRule])
        with ([Printed DiagBanner]
              ++ map Printed (diagnose str_exn (http_snapshot (bs_server env) p))
              ++ [Printed DiagRule]).
      rewrite !count_console_app, !filter_app, count_stats_printout_printed,
              filter_printed_printed.
      cbn. rewrite map_app. cbn. repeat split; lia.
    + eexists _, _. split; [reflexivity|].
      rewrite !count_console_app, !filter_app, !count_stats_printout_logged,
              !filter_printed_logged, T2. cbn. repeat split; lia.
Qed.

(** X17. Whatever the server does, a basic probe makes exactly one connection
    attempt, counted as one success or one failure, and sends at most one
    message; it never prints the statistics twice, and when [close]
    returns it returns normally having printed them exactly once. *)
Theorem basic_probe_single_attempt (str_exn : exn -> string)
    (u message : string) (h : list (string * string)) (skip dbg : bool)
    (env : basic_env) :
  exists r p t,
    basic_probe str_exn u message h skip dbg env = (r, p, t)
    /\ connection_attempts (stats p) = 1
    /\ successful_connections (stats p) + failed_connections (stats p) = 1
    /\ 0 <= messages_sent (stats p) <= 1
    /\ (count_console is_stats_printout t <= 1)%nat
    /\ match bs_close env with
       | Ret _ => r = Ret tt /\ count_console is_stats_printout t = 1%nat
       | Raise _ => True
       end.
Proof.
  unfold basic_probe, io_finally.
  destruct (basic_probe_body str_exn message dbg env (new_probe u 5 h skip dbg))
    as (q & t & -> & Ha & Hb & Hm & Hc & _).
  unfold io_bind, lift, print_stats, get, emit, bind.
  pose proof (close_stats (bs_close env) q) as Hs.
  pose proof (close_quiet (bs_close env) q) as [_ C2].
  pose proof (close_returns q) as Hr.
  unfold result_of, probe_of, trace_of in *.
  destruct (bs_close env) as [[]|x];
    destruct (close _ q) as [[[[]|y] q'] t']; cbn [fst snd] in *;
    try discriminate Hr;
    do 3 eexists; (split; [reflexivity|]);
    rewrite ?count_console_app, ?count_stats_printout_logged,
            ?count_events_app, ?Hs, ?Ha, ?Hb, ?Hc, ?C2;
    cbn in *; repeat split; lia.
Qed.

(** X18. The HTTP diagnosis is printed exactly when the connection failed and
    debug mode is on: then the driver's prints are the banner, the lines
    describing the answer to the GET built from the configured target, and
    the closing rule; otherwise the driver prints nothing of its own. *)
Theorem basic_probe_diagnosis_gate (str_exn : exn -> string)
    (u message : string) (h : list (string * string)) (skip dbg : bool)
    (env : basic_env) :
  let probe := new_probe u 5 h skip dbg in
  filter is_printed (snd (basic_probe str_exn u message h skip dbg env))
  = if (connect_succeeds (bs_connect env) probe || negb dbg)%bool then []
    else map Printed
           (DiagBanner
            :: diagnose str_exn (http_snapshot (bs_server env) probe)
            ++ [DiagRule]).
Proof.
  intros probe. unfold basic_probe, io_finally. fold probe.
  destruct (basic_probe_body str_exn message dbg env probe)
    as (q & t & -> & _ & _ & _ & _ & Hp).
  unfold io_bind, lift, print_stats, get, emit, bind.
  destruct (close (bs_close env) q) as [[[[]|y] q'] t']; cbn [fst snd];
    rewrite ?filter_app, ?filter_printed_logged, ?app_nil_r; exact Hp.
Qed.

(** * Properties of the interactive mode *)

(** X19. A reserved word, in any letter case, or a blank line is never sent:
    the turn leaves the whole session as it was (statistics included), and
    it ends the loop exactly when the word is quit, exit or q. *)
Theorem prompt_commands_send_nothing (e : prompt_env) (p : WebSocketProbe)
    (user_input : string) :
  pe_line e = Ret user_input ->
  is_command user_input = true ->
  exists t,
    prompt_turn e p
    = (Ret (if is_quit user_input then Break else Continue), p, t).
Proof.
  unfold is_command, is_quit, reserved_words, prompt_turn, PyText.among.
  intros -> H. cbn [existsb] in *.
  set (l := PyStr.lower user_input) in *.
  destruct (String.eqb l "quit"), (String.eqb l "exit"), (String.eqb l "q");
    cbn [orb] in *; try (eexists; reflexivity).
  destruct (String.eqb l "ping"); cbn [orb] in *.
  { unfold io_bind, lift, say, io_ret.
    pose proof (ping_test_probe (pe_pong e) p) as [Hp [b Hb]].
    unfold result_of, probe_of in *.
    destruct (ping_test (pe_pong e) p) as [[r q] t]. cbn [fst snd] in *.
    subst r q. eexists. reflexivity. }
  destruct (String.eqb l "stats"); cbn [orb] in *; [eexists; reflexivity|].
  destruct (String.eqb l "help"); cbn [orb] in *; [eexists; reflexivity|].
  rewrite H. eexists. reflexivity.
Qed.

Lemma prompt_commands_send_nothing_witness :
  exists t,
    prompt_turn (typed "QUIT") a_session
    = (Ret (if is_quit "QUIT" then Break else Continue), a_session, t).
Proof.
  exact (prompt_commands_send_nothing (typed "QUIT") a_session "QUIT"
           eq_refl eq_refl).
Defined.

(** X20. Any other line (of ASCII characters) is sent as typed: when the
    send returns, exactly [messages_sent] grows by one and the loop goes
    on; when it raises, nothing is counted and the loop ends. *)
Theorem prompt_forwards_other_lines (e : prompt_env) (p : WebSocketProbe)
    (c : Connection) (user_input : string) :
  PyText.is_ascii user_input = true ->
  pe_line e = Ret user_input ->
  is_command user_input = false ->
  connection p = Some c ->
  prompt_turn e p
  = match pe_send e with
    | Ret _ => (Ret Continue, set_stats incr_messages_sent p,
                [Printed (SaySent user_input)])
    | Raise x => (Ret Break, p, [Printed (SaySendError x)])
    end.
Proof.
  unfold is_command, reserved_words, prompt_turn, PyText.among.
  intros _ -> H Hc. cbn [existsb] in *.
  set (l := PyStr.lower user_input) in *.
  destruct (String.eqb l "quit"), (String.eqb l "exit"), (String.eqb l "q"),
           (String.eqb l "ping"), (String.eqb l "stats"), (String.eqb l "help");
    cbn [orb] in H; try discriminate H.
  cbn [orb]. rewrite H, Hc. destruct (pe_send e); reflexivity.
Qed.

Lemma prompt_forwards_other_lines_witness :
  prompt_turn (typed "hello world") a_session
  = (Ret Continue, set_stats incr_messages_sent a_session,
     [Printed (SaySent "hello world")]).
Proof.
  exact (prompt_forwards_other_lines (typed "hello world") a_session
           a_connection "hello world" eq_refl eq_refl eq_refl eq_refl).
Defined.

Lemma prompt_turn_shapes (e : prompt_env) (p : WebSocketProbe) :
  exists ctl q t,
    prompt_turn e p = (Ret ctl, q, t)
    /\ (q = p \/ q = set_stats incr_messages_sent p)
    /\ count_console is_stats_printout t = 0%nat
    /\ (ends_session (Prompt e) = true -> ctl = Break).
Proof.
  unfold ends_session, is_quit, prompt_turn.
  destruct (pe_line e) as [user_input|x].
  2:{ do 3 eexists. split; [reflexivity|]. auto. }
  destruct (PyText.among (PyStr.lower user_input) ["quit"; "exit"; "q"]).
  { do 3 eexists. split; [reflexivity|]. auto. }
  destruct (String.eqb (PyStr.lower user_input) "ping").
  { unfold io_bind, lift, say, io_ret.
    pose proof (ping_test_probe (pe_pong e) p) as [Hp [b Hb]].
    pose proof (ping_test_quiet (pe_pong e) p) as [_ P2].
    unfold result_of, probe_of, trace_of in *.
    destruct (ping_test (pe_pong e) p) as [[r q] t]. cbn [fst snd] in *.
    subst r q. do 3 eexists. split; [reflexivity|].
    rewrite !count_console_app, count_stats_printout_logged, P2.
    repeat split; auto; discriminate. }
  destruct (String.eqb (PyStr.lower user_input) "stats").
  { do 3 eexists. split; [reflexivity|]. repeat split; auto; discriminate. }
  destruct (String.eqb (PyStr.lower user_input) "help").
  { do 3 eexists. split; [reflexivity|]. repeat split; auto; discriminate. }
  destruct (negb (PyText.truthy (PyText.strip user_input))).
  { do 3 eexists. split; [reflexivity|]. repeat split; auto; discriminate. }
  destruct (connection p), (pe_send e); do 3 eexists;
    (split; [reflexivity|]); repeat split; auto; discriminate.
Qed.

Lemma receiver_turn_shapes (r : outcome string) (p : WebSocketProbe) :
  exists again q t,
    receiver_turn r p = (Ret again, q, t)
    /\ (q = p \/ q = set_stats incr_messages_received p)
    /\ count_console is_stats_printout t = 0%nat.
Proof.
  unfold receiver_turn. destruct r as [message|[]];
    do 3 eexists; (split; [reflexivity|]); auto.
Qed.

Lemma interactive_loop_accounting (schedule : list turn) :
  forall (receiving : bool) (p q : WebSocketProbe) (t : list console),
    interactive_loop schedule receiving p = Some (q, t) ->
    loop_accounting schedule p q t.
Proof.
  unfold loop_accounting.
  induction schedule as [|turn schedule IH]; intros receiving p q t H;
    [discriminate H|].
  cbn [interactive_loop] in H.
  destruct turn as [e|r]; cbn [filter is_prompt is_incoming List.length].
  - destruct (prompt_turn_shapes e p) as (ctl & p1 & t1 & E & Hp & Hc & _).
    rewrite E in H.
    assert (H1 : connection p1 = connection p
                 /\ stats p1 = stats p
                    \/ connection p1 = connection p
                       /\ stats p1 = incr_messages_sent (stats p)).
    { destruct Hp as [->| ->]; [left | right]; split; reflexivity. }
    destruct ctl.
    + destruct (interactive_loop schedule receiving p1) as [[p2 t2]|] eqn:E2;
        [|discriminate H].
      injection H as <- <-. apply IH in E2.
      rewrite count_console_app, Hc.
      destruct H1 as [[Hcn Hst]|[Hcn Hst]]; rewrite Hcn, Hst in E2;
        cbn in *; repeat split; lia || tauto.
    + injection H as <- <-.
      destruct H1 as [[Hcn Hst]|[Hcn Hst]]; rewrite Hcn, Hst;
        cbn; repeat split; auto; lia.
  - destruct receiving.
    + destruct (receiver_turn_shapes r p) as (again & p1 & t1 & E & Hp & Hc).
      rewrite E in H.
      destruct (interactive_loop schedule again p1) as [[p2 t2]|] eqn:E2;
        [|discriminate H].
      injection H as <- <-. apply IH in E2.
      rewrite count_console_app, Hc.
      destruct Hp as [Hp|Hp]; rewrite Hp in E2;
        cbn in *; repeat split; lia || tauto.
    + apply IH in H. repeat split; lia || tauto.
Qed.

Lemma interactive_loop_ends (schedule : list turn) :
  existsb ends_session schedule = true ->
  forall (receiving : bool) (p : WebSocketProbe),
    exists q t, interactive_loop schedule receiving p = Some (q, t).
Proof.
  induction schedule as [|turn schedule IH]; intros H receiving p;
    [discriminate H|].
  cbn [existsb] in H. cbn [interactive_loop].
  destruct turn as [e|r].
  - destruct (prompt_turn_shapes e p) as (ctl & p1 & t1 & -> & _ & _ & Hb).
    destruct ctl; [|eauto].
    destruct (ends_session (Prompt e)); [specialize (Hb eq_refl); discriminate|].
    destruct (IH H receiving p1) as (q & t & ->). eauto.
  - cbn [ends_session orb] in H. destruct receiving.
    + destruct (receiver_turn_shapes r p) as (again & p1 & t1 & -> & _).
      destruct (IH H again p1) as (q & t & ->). eauto.
    + apply IH. exact H.
Qed.

Lemma usage_then_connect (connecting : connect_env) (p : WebSocketProbe) :
  (say SayUsage ;;; lift (connect connecting))%io p
  = match connect connecting p with
    | (r, q, t) => (r, q, [Printed SayUsage] ++ map Logged t)
    end.
Proof.
  unfold io_bind, say, lift. destruct (connect connecting p) as [[r q] t].
  reflexivity.
Qed.

(** X21. An interactive session in which the operator eventually quits (or
    [input] fails) terminates.  It has made exactly one connection attempt;
    it has counted at most one sent message per prompt and at most one
    received message per incoming frame; it has measured no response time
    at all (total 0, minimum still infinite, maximum 0, whatever was
    received); and it prints the final statistics at most once, exactly
    once when [close] returns. *)
Theorem interactive_mode_accounting
    (u : string) (h : list (string * string)) (skip dbg : bool)
    (connecting : connect_env) (schedule : list turn)
    (closing : outcome unit) :
  existsb ends_session schedule = true ->
  exists r p t,
    interactive_mode u h skip dbg connecting schedule closing = Some (r, p, t)
    /\ connection_attempts (stats p) = 1
    /\ successful_connections (stats p) + failed_connections (stats p) = 1
    /\ 0 <= messages_sent (stats p)
       <= Z.of_nat (List.length (filter is_prompt schedule))
    /\ 0 <= messages_received (stats p)
       <= Z.of_nat (List.length (filter is_incoming schedule))
    /\ total_response_time (stats p) = Fzero
    /\ min_response_time (stats p) = Inf
    /\ max_response_time (stats p) = 0
    /\ (count_console is_stats_printout t <= 1)%nat
    /\ match closing with
       | Ret _ => r = Ret tt /\ count_console is_stats_printout t = 1%nat
       | Raise _ => True
       end.
Proof.
  intros Hq. unfold interactive_mode.
  set (probe := new_probe u 5 h skip dbg).
  rewrite (usage_then_connect connecting probe).
  pose proof (connect_cases connecting probe) as Hc.
  pose proof (connect_trace connecting probe) as [_ T2].
  unfold result_of, probe_of, trace_of in *.
  destruct (connect connecting probe) as [[rc p1] t1]. cbn [fst snd] in *.
  assert (Hfin : forall q tb,
            connection_attempts (stats q) = 1 ->
            successful_connections (stats q) + failed_connections (stats q) = 1 ->
            count_console is_stats_printout tb = 0%nat ->
            exists r p t,
              io_finally (fun _ => (Ret tt, q, tb))
                (lift (close closing) ;;; say SayFinalStats ;;;
                 lift print_stats)%io probe
              = (r, p, t)
              /\ stats p = stats q
              /\ (count_console is_stats_printout t <= 1)%nat
              /\ match closing with
                 | Ret _ =>
                     r = Ret tt /\ count_console is_stats_printout t = 1%nat
                 | Raise _ => True
                 end).
  { intros q tb _ _ Hb. unfold io_finally, io_bind, lift, say, print_stats,
      get, emit, bind.
    pose proof (close_stats closing q) as Hs.
    pose proof (close_quiet closing q) as [_ C2].
    pose proof (close_returns q) as Hr.
    unfold result_of, probe_of, trace_of in *.
    destruct closing as [[]|x];
      destruct (close _ q) as [[[[]|y] q'] t']; cbn [fst snd] in *;
      try discriminate Hr;
      do 3 eexists; (split; [reflexivity|]);
      rewrite ?count_console_app, ?count_stats_printout_logged, ?Hb, ?C2;
      cbn; repeat split; auto; lia. }
  destruct Hc as [(c & -> & ->)|[-> ->]].
  - destruct (interactive_loop_ends schedule Hq true (connected_probe c probe))
      as (q & t & E).
    rewrite E. apply interactive_loop_accounting in E.
    destruct E as (_ & A1 & A2 & A3 & A4 & A5 & A6 & A7 & A8 & A9).
    cbn in A1, A2, A3, A4, A5, A6, A7, A8.
    destruct (Hfin q (([Printed SayUsage] ++ map Logged t1)
                      ++ [Printed SayConnected] ++ t))
      as (r & p & tr & E' & Hs & Hle & Hcl).
    + lia.
    + lia.
    + rewrite !count_console_app, count_stats_printout_logged, T2, A9.
      reflexivity.
    + exists r, p, tr. cbn [app] in E'. split; [rewrite <- E'; reflexivity|].
      rewrite Hs. repeat split; auto; lia.
  - destruct (Hfin (refused_probe probe)
                (([Printed SayUsage] ++ map Logged t1)
                 ++ [Printed SayCannotConnect]))
      as (r & p & tr & E' & Hs & Hle & Hcl).
    + reflexivity.
    + reflexivity.
    + rewrite !count_console_app, count_stats_printout_logged, T2.
      reflexivity.
    + exists r, p, tr. cbn [app] in E'. split; [rewrite <- E'; reflexivity|].
      rewrite Hs. cbn. repeat split; auto; lia.
Qed.

Lemma interactive_mode_accounting_witness :
  exists r p t,
    interactive_mode "ws://h/" [] false false accepting
      [Prompt (typed "hello"); Incoming (Ret "hello"); Prompt (typed "Quit")]
      (Ret tt)
    = Some (r, p, t)
    /\ connection_attempts (stats p) = 1.
Proof.
  destruct (interactive_mode_accounting "ws://h/" [] false false accepting
              [Prompt (typed "hello"); Incoming (Ret "hello");
               Prompt (typed "Quit")]
              (Ret tt) eq_refl) as (r & p & t & E & A & _).
  exists r, p, t. split; [exact E | exact A].
Defined.

(** X22. When the connection cannot be established the interactive session
    is over before any prompt, whatever the schedule offers.  It prints the
    usage, then what [connect] logs, then the notice that the connection
    could not be made; the final [close] finds no handle, so it calls
    nothing, logs nothing and cannot fail; then the final statistics are
    announced and printed: one attempt, one failure, nothing else.  The
    mode returns normally. *)
Theorem interactive_mode_connect_failure
    (u : string) (h : list (string * string)) (skip dbg : bool)
    (connecting : connect_env) (schedule : list turn)
    (closing : outcome unit) :
  let probe := new_probe u 5 h skip dbg in
  let refused := incr_failed_connections (incr_connection_attempts init_stats) in
  connect_succeeds connecting probe = false ->
  exists p,
    interactive_mode u h skip dbg connecting schedule closing
    = Some (Ret tt, p,
            [Printed SayUsage]
            ++ map Logged (trace_of (connect connecting probe))
            ++ [Printed SayCannotConnect; Printed SayFinalStats;
                Logged (PrintStats refused)])
    /\ stats p = refused
    /\ connection p = None
    /\ close closing p = (Ret tt, p, []).
Proof.
  intros probe refused. unfold connect_succeeds, interactive_mode. intros Hc.
  fold probe.
  rewrite (usage_then_connect connecting probe).
  pose proof (connect_cases connecting probe) as H.
  unfold result_of, probe_of, trace_of in *.
  destruct (connect connecting probe) as [[rc p1] t1]. cbn [fst snd] in *.
  destruct H as [(c & -> & ->)|[-> ->]]; [discriminate Hc|].
  exists (refused_probe probe).
  unfold io_finally, io_bind, lift, say, print_stats, get, emit, bind, close,
    ret.
  cbn. rewrite <- !app_assoc. cbn. repeat split.
Qed.

Lemma interactive_mode_connect_failure_witness :
  exists p,
    interactive_mode "ws://h/" [] false false refusing
      [Prompt (typed "hello")] failing_close
    = Some (Ret tt, p,
            [Printed SayUsage]
            ++ map Logged
                 (trace_of (connect refusing (new_probe "ws://h/" 5 [] false false)))
            ++ [Printed SayCannotConnect; Printed SayFinalStats;
                Logged (PrintStats
                          (incr_failed_connections
                             (incr_connection_attempts init_stats)))])
    /\ stats p = incr_failed_connections (incr_connection_attempts init_stats)
    /\ connection p = None
    /\ close failing_close p = (Ret tt, p, []).
Proof.
  exact (interactive_mode_connect_failure "ws://h/" [] false false refusing
           [Prompt (typed "hello")] failing_close eq_refl).
Defined.

Lemma count_received_logged (t : list event) :
  count_console is_received_line (map Logged t) = 0%nat.
Proof.
  induction t as [|e t IH]; [reflexivity|]. exact IH.
Qed.

Lemma prompt_turn_announces_no_frame (e : prompt_env) (p : WebSocketProbe) :
  count_console is_received_line (snd (prompt_turn e p)) = 0%nat.
Proof.
  unfold prompt_turn.
  destruct (pe_line e) as [user_input|x]; [|reflexivity].
  destruct (PyText.among (PyStr.lower user_input) ["quit"; "exit"; "q"]);
    [reflexivity|].
  destruct (String.eqb (PyStr.lower user_input) "ping").
  { unfold io_bind, lift, say, io_ret.
    pose proof (ping_test_probe (pe_pong e) p) as [_ [b Hb]].
    unfold result_of in Hb.
    destruct (ping_test (pe_pong e) p) as [[r q] t]. cbn [fst snd] in *.
    subst r. cbn [snd].
    rewrite !count_console_app, count_received_logged.
    destruct b; reflexivity. }
  destruct (String.eqb (PyStr.lower user_input) "stats"); [reflexivity|].
  destruct (String.eqb (PyStr.lower user_input) "help"); [reflexivity|].
  destruct (negb (PyText.truthy (PyText.strip user_input))); [reflexivity|].
  destruct (connection p), (pe_send e); reflexivity.
Qed.

(** With the receiver task stopped, the prompt loop neither counts nor
    announces a frame. *)
Lemma stopped_receiver_is_deaf (schedule : list turn) :
  forall (p q : WebSocketProbe) (t : list console),
    interactive_loop schedule false p = Some (q, t) ->
    messages_received (stats q) = messages_received (stats p)
    /\ count_console is_received_line t = 0%nat.
Proof.
  induction schedule as [|turn schedule IH]; intros p q t H;
    [discriminate H|].
  cbn [interactive_loop] in H. destruct turn as [e|r].
  - destruct (prompt_turn_shapes e p) as (ctl & p1 & t1 & E & Hp & _).
    pose proof (prompt_turn_announces_no_frame e p) as Hn.
    rewrite E in H, Hn. cbn [snd] in Hn.
    assert (Hr : messages_received (stats p1) = messages_received (stats p)).
    { destruct Hp as [->| ->]; reflexivity. }
    destruct ctl.
    + destruct (interactive_loop schedule false p1) as [[p2 t2]|] eqn:E2;
        [|discriminate H].
      injection H as <- <-. apply IH in E2. destruct E2 as [E2 E3].
      rewrite count_console_app, Hn, E3. split; [lia|reflexivity].
    + injection H as <- <-. split; [exact Hr|exact Hn].
  - apply IH in H. exact H.
Qed.

(** X23. The receiver task counts and announces every frame until [recv]
    raises (the peer closed the connection, or any other exception), and
    none afterwards: in a session in which the operator eventually quits,
    when the frames [msgs] arrive and then [recv] raises, the prompt loop
    ends with [messages_received] grown by the number of [msgs] and that
    many frames announced, whatever frames the rest of the schedule
    offers. *)
Theorem receiver_stopped_counts_nothing (msgs : list string) (x : exn)
    (schedule : list turn) (p : WebSocketProbe) :
  existsb ends_session schedule = true ->
  exists q t,
    interactive_loop (frames msgs ++ Incoming (Raise x) :: schedule) true p
    = Some (q, t)
    /\ messages_received (stats q)
       = messages_received (stats p) + Z.of_nat (List.length msgs)
    /\ count_console is_received_line t = List.length msgs.
Proof.
  intros Hq. revert p. induction msgs as [|message msgs IH]; intros p.
  - cbn [frames map app interactive_loop List.length].
    assert (E : exists l, receiver_turn (Raise x) p = (Ret false, p, [Printed l])
                          /\ is_received_line (Printed l) = false).
    { destruct x; eexists; split; reflexivity. }
    destruct E as (l & -> & Hl).
    destruct (interactive_loop_ends schedule Hq false p) as (q & t & E).
    rewrite E. apply stopped_receiver_is_deaf in E. destruct E as [E1 E2].
    exists q, ([Printed l] ++ t). split; [reflexivity|].
    rewrite count_console_app, E2. unfold count_console. cbn [filter].
    rewrite Hl. split; [cbn; lia|reflexivity].
  - cbn [frames map app interactive_loop receiver_turn List.length].
    fold (frames msgs).
    destruct (IH (set_stats incr_messages_received p)) as (q & t & -> & E1 & E2).
    exists q, ([Printed (SayReceived message)] ++ t). split; [reflexivity|].
    rewrite count_console_app, E2, E1. cbn. split; [lia|reflexivity].
Qed.

Lemma receiver_stopped_counts_nothing_witness :
  exists q t,
    interactive_loop
      (frames ["first"; "second"]
       ++ Incoming (Raise ConnectionClosed)
          :: [Incoming (Ret "late"); Prompt (typed "hello");
              Incoming (Ret "later"); Prompt (typed "q")])
      true a_session
    = Some (q, t)
    /\ messages_received (stats q)
       = messages_received (stats a_session) + Z.of_nat 2
    /\ count_console is_received_line t = 2%nat.
Proof.
  exact (receiver_stopped_counts_nothing ["first"; "second"] ConnectionClosed
           [Incoming (Ret "late"); Prompt (typed "hello");
            Incoming (Ret "later"); Prompt (typed "q")]
           a_session eq_refl).
Defined.

Lemma open_connection_no_ssl_warning (env : connect_env) (p : WebSocketProbe) :
  count_events is_ssl_warning (trace_of (open_connection env p)) = 0%nat.
Proof.
  unfold open_connection. unfold_monad.
  destruct (with_additional_headers env) as [c|e]; [reflexivity|].
  destruct e; try reflexivity.
  destruct (PyStr.contains "additional_headers" msg); [|reflexivity].
  destruct (with_extra_headers env) as [c|e]; [reflexivity|].
  destruct e; try reflexivity.
  destruct (PyStr.contains "extra_headers" msg0); [|reflexivity].
  destruct (without_headers env); reflexivity.
Qed.

(** X7. [connect] logs the warning that certificate verification is disabled
    exactly once when the target starts with [wss://] and
    [skip_ssl_verify] is set, and never otherwise: in particular never for
    a [ws://] target, whatever the flag. *)
Theorem connect_ssl_warning (env : connect_env) (p : WebSocketProbe) :
  count_events is_ssl_warning (trace_of (connect env p))
  = if (PyStr.startswith (uri p) "wss://" && skip_ssl_verify p)%bool
    then 1%nat else 0%nat.
Proof.
  unfold connect. unfold_monad. cbn -[open_connection PyStr.startswith].
  set (q := set_stats incr_connection_attempts p).
  pose proof (open_connection_no_ssl_warning env q) as Q.
  unfold trace_of in Q.
  destruct (open_connection env q) as [[r q1] t] eqn:E. cbn [snd] in Q.
  destruct (debug p), (PyStr.startswith (uri p) "wss://"),
           (skip_ssl_verify p); cbn -[open_connection]; fold q; rewrite E; cbn;
  (destruct r as [c|e];
   [ | destruct e; unfold status_hints; unfold_monad; cbn;
       repeat match goal with
              | |- context [if ?b then _ else _] => destruct b; cbn
              end ]);
  unfold count_events in *; cbn; rewrite ?filter_app, ?List.length_app;
  cbn; rewrite ?Q; reflexivity.
Qed.
